(** * Client-side stores of the shopping-mall front end

    A shallow embedding of the two zustand stores of the repository:
    - [src/stores/authStore.ts]: the end-user identity store;
    - the admin store (users, products, orders, dashboard statistics).

    The identity store only handles values it builds itself, so it is
    embedded with records that follow the TypeScript interfaces.  The admin
    store puts whatever the remote API answered into its state
    ([response.json ()] has type [any]), so its data are embedded as
    untyped JSON values, and the TypeScript interfaces appear only as
    hypotheses on shapes.

    A string is a sequence of characters, one per UTF-16 code unit of the
    JavaScript string, so that [String.length] is [.length].  The clock and
    the network are inputs of the actions that use them. *)

From Stdlib Require Import ZArith NArith String Ascii List Bool Lia.
From Stdlib Require Import DecimalString DecimalZ.
From stdpp Require Import base option list gmap strings.

Set Warnings "-register-all".
Local Open Scope string_scope.

(** ** The fragment of JavaScript the stores use *)

Module JS.

(** [if (s)] on a string: the empty string is the only falsy one. *)
Definition string_truthy (s : string) : bool :=
  match s with
  | EmptyString => false
  | String _ _ => true
  end.

(** [s.split (sep)] for a separator of one character.  The result always
    has at least one piece; a string without the separator comes back whole. *)
Fixpoint split (sep : ascii) (s : string) : list string :=
  match s with
  | EmptyString => [EmptyString]
  | String c rest =>
      if Ascii.eqb c sep then EmptyString :: split sep rest
      else match split sep rest with
           | piece :: pieces => String c piece :: pieces
           | [] => [String c EmptyString]
           end
  end.

(** [a[0]] read at type [string]: [undefined] (an empty array) is rendered
    as the empty string; [split_not_nil] shows [split] never gets there. *)
Definition first_piece (a : list string) : string :=
  match a with
  | piece :: _ => piece
  | [] => EmptyString
  end.

(** [n.toString ()] for an integer [n] whose magnitude is below 10^21, which
    covers every value of [Date.now ()]: the decimal digits, with a leading
    minus sign for a negative number. *)
Definition Number_toString (n : Z) : string :=
  NilEmpty.string_of_int (Z.to_int n).

(** JSON values as [JSON.parse] builds them, plus [undefined], which a
    property read can produce.  A number is kept as the bit pattern of its
    IEEE-754 double; the stores never compute with numbers. *)
Inductive value : Type :=
| VUndefined
| VNull
| VBool (b : bool)
| VNum (bits : N)
| VStr (s : string)
| VArr (elems : list value)
| VObj (fields : gmap string value).

(** Neither of the two zeros, nor a NaN. *)
Definition number_truthy (bits : N) : bool :=
  let magnitude := N.land bits 0x7FFFFFFFFFFFFFFF in
  negb (magnitude =? 0)%N && (magnitude <=? 0x7FF0000000000000)%N.

(** [if (v)] *)
Definition truthy (v : value) : bool :=
  match v with
  | VUndefined | VNull => false
  | VBool b => b
  | VNum bits => number_truthy bits
  | VStr s => string_truthy s
  | VArr _ | VObj _ => true
  end.

(** What a JavaScript statement can throw here; [NetworkError] is the
    rejection of [fetch]. *)
Inductive exn : Type :=
| Error (message : string)
| TypeError
| SyntaxError
| NetworkError.

(** The property names the stores read from remote data.  None of them is a
    property of arrays, strings, numbers or booleans. *)
Inductive PropName : Type := P_success | P_data | P_user | P_id.

Definition prop_key (p : PropName) : string :=
  match p with
  | P_success => "success"
  | P_data => "data"
  | P_user => "user"
  | P_id => "id"
  end.

(** [v.p]: a [TypeError] on [null] and [undefined], the field of an object,
    [undefined] everywhere else. *)
Definition getProp (v : value) (p : PropName) : exn + value :=
  match v with
  | VUndefined | VNull => inl TypeError
  | VObj fields => inr (default VUndefined (fields !! prop_key p))
  | VBool _ | VNum _ | VStr _ | VArr _ => inr VUndefined
  end.

(** [v === s] for a string [s]. *)
Definition strict_eq_string (v : value) (s : string) : bool :=
  match v with
  | VStr t => bool_decide (t = s)
  | _ => false
  end.

Fixpoint string_chars (s : string) : list value :=
  match s with
  | EmptyString => []
  | String c rest => VStr (String c EmptyString) :: string_chars rest
  end.

Definition indexed_fields (elems : list value) : gmap string value :=
  list_to_map (imap (fun i x => (Number_toString (Z.of_nat i), x)) elems).

(** The own enumerable properties that [{...v}] copies. *)
Definition own_fields (v : value) : gmap string value :=
  match v with
  | VObj fields => fields
  | VArr elems => indexed_fields elems
  | VStr s => indexed_fields (string_chars s)
  | VUndefined | VNull | VBool _ | VNum _ => ∅
  end.

(** [{...v, key: x}] *)
Definition spread_with (v : value) (key : string) (x : value) : value :=
  VObj (<[key := x]> (own_fields v)).

(** The double without its sign bit. *)
Definition number_magnitude (bits : N) : N :=
  N.land bits 0x7FFFFFFFFFFFFFFF.

Definition number_is_nan (bits : N) : bool :=
  (0x7FF0000000000000 <? number_magnitude bits)%N.

Definition number_is_finite (bits : N) : bool :=
  (number_magnitude bits <? 0x7FF0000000000000)%N.

Definition number_is_zero (bits : N) : bool :=
  (number_magnitude bits =? 0)%N.

(** [a === b] on numbers: a NaN equals nothing, the two zeros are equal, and
    any other double equals only itself. *)
Definition number_strict_eq (a b : N) : bool :=
  negb (number_is_nan a) && negb (number_is_nan b)
  && ((a =? b)%N || (number_is_zero a && number_is_zero b)).

(** [v === n] for a number [n]. *)
Definition strict_eq_number (v : value) (n : N) : bool :=
  match v with
  | VNum m => number_strict_eq m n
  | _ => false
  end.

(** The elements that [[...v]] copies: those of an array, the code points of
    a string (here every character is one code point), and a [TypeError]
    for a value that is not iterable. *)
Definition iterate (v : value) : exn + list value :=
  match v with
  | VArr elems => inr elems
  | VStr s => inr (string_chars s)
  | VUndefined | VNull | VBool _ | VNum _ | VObj _ => inl TypeError
  end.

(** [JSON.parse (JSON.stringify (v))]: [None] when [stringify] gives
    [undefined].  A property that holds [undefined] is left out, an element
    that is [undefined] becomes [null]; so does a number that is not finite,
    and the negative zero loses its sign. *)
Fixpoint reparse (v : value) : option value :=
  match v with
  | VUndefined => None
  | VNull => Some VNull
  | VBool b => Some (VBool b)
  | VNum bits =>
      if number_is_finite bits
      then Some (VNum (if number_is_zero bits then 0%N else bits))
      else Some VNull
  | VStr s => Some (VStr s)
  | VArr elems => Some (VArr (map (fun x => default VNull (reparse x)) elems))
  | VObj fields => Some (VObj (omap reparse fields))
  end.

(** The values that a JSON text denotes: no [undefined] anywhere, numbers
    finite and no negative zero. *)
Inductive json_clean : value -> Prop :=
| clean_null : json_clean VNull
| clean_bool (b : bool) : json_clean (VBool b)
| clean_num (bits : N) :
    number_is_finite bits = true ->
    (number_is_zero bits = true -> bits = 0%N) ->
    json_clean (VNum bits)
| clean_str (s : string) : json_clean (VStr s)
| clean_arr (elems : list value) :
    (forall (i : nat) (x : value), elems !! i = Some x -> json_clean x) ->
    json_clean (VArr elems)
| clean_obj (fields : gmap string value) :
    (forall (key : string) (x : value),
       fields !! key = Some x -> json_clean x) ->
    json_clean (VObj fields).

End JS.

(** ** The identity store, [src/stores/authStore.ts] *)

Module AuthStore.

Record User : Type := mkUser {
  id : string;
  email : string;
  name : string;
  phone : option string;
  address : option string;
  joinDate : string;
  isEmailVerified : bool;
  isPhoneVerified : bool
}.

Inductive VerificationMethod : Type := ByEmail | ByPhone.

Record VerificationState : Type := mkVerification {
  emailVerificationSent : bool;
  phoneVerificationSent : bool;
  emailVerified : bool;
  phoneVerified : bool;
  verificationMethod : option VerificationMethod
}.

(** The data part of [AuthStore]; [user : None] is [null]. *)
Record AuthState : Type := mkAuth {
  user : option User;
  isLoggedIn : bool;
  verification : VerificationState
}.

(** The argument of [signup]. *)
Record SignupData : Type := mkSignup {
  su_email : string;
  su_password : string;
  su_name : string;
  su_phone : option string
}.

Definition initialVerification : VerificationState :=
  {| emailVerificationSent := false;
     phoneVerificationSent := false;
     emailVerified := false;
     phoneVerified := false;
     verificationMethod := None |}.

Definition initialState : AuthState :=
  {| user := None; isLoggedIn := false; verification := initialVerification |}.

(** [set ({ user, isLoggedIn })]: zustand merges the given keys into the
    current state and keeps the others. *)
Definition set_session (u : option User) (logged : bool) (s : AuthState)
  : AuthState :=
  {| user := u; isLoggedIn := logged; verification := verification s |}.

(** [login]: [iso] is what [new Date ().toISOString ()] evaluates to and [s]
    is the state found once the one-second delay is over. *)
Definition login (iso : string) (email password : string) (s : AuthState)
  : bool * AuthState :=
  if JS.string_truthy email && (6 <=? String.length password)%nat then
    let user :=
      {| id := "1";
         email := email;
         name := JS.first_piece (JS.split "@" email);
         phone := None;
         address := None;
         joinDate := iso;
         isEmailVerified := true;
         isPhoneVerified := false |} in
    (true, set_session (Some user) true s)
  else (false, s).

(** [signup]: [now] is the value of [Date.now ()], [iso] the value of
    [new Date ().toISOString ()], both read after the delay. *)
Definition signup (now : Z) (iso : string) (userData : SignupData)
    (s : AuthState) : bool * AuthState :=
  let user :=
    {| id := JS.Number_toString now;
       email := su_email userData;
       name := su_name userData;
       phone := su_phone userData;
       address := None;
       joinDate := iso;
       isEmailVerified := false;
       isPhoneVerified := false |} in
  (true, set_session (Some user) true s).

Definition logout (s : AuthState) : AuthState :=
  {| user := None;
     isLoggedIn := false;
     verification :=
       {| emailVerificationSent := false;
          phoneVerificationSent := false;
          emailVerified := false;
          phoneVerified := false;
          verificationMethod := None |} |}.

(** The verification setters: [set (state => ({ verification: {...} }))]. *)
Definition set_verification (v : VerificationState) (s : AuthState)
  : AuthState :=
  {| user := user s; isLoggedIn := isLoggedIn s; verification := v |}.

Definition setVerificationMethod (method : VerificationMethod)
    (s : AuthState) : AuthState :=
  let v := verification s in
  set_verification
    {| emailVerificationSent := emailVerificationSent v;
       phoneVerificationSent := phoneVerificationSent v;
       emailVerified := emailVerified v;
       phoneVerified := phoneVerified v;
       verificationMethod := Some method |} s.

Definition setEmailVerificationSent (sent : bool) (s : AuthState)
  : AuthState :=
  let v := verification s in
  set_verification
    {| emailVerificationSent := sent;
       phoneVerificationSent := phoneVerificationSent v;
       emailVerified := emailVerified v;
       phoneVerified := phoneVerified v;
       verificationMethod := verificationMethod v |} s.

Definition setPhoneVerificationSent (sent : bool) (s : AuthState)
  : AuthState :=
  let v := verification s in
  set_verification
    {| emailVerificationSent := emailVerificationSent v;
       phoneVerificationSent := sent;
       emailVerified := emailVerified v;
       phoneVerified := phoneVerified v;
       verificationMethod := verificationMethod v |} s.

Definition setEmailVerified (verified : bool) (s : AuthState) : AuthState :=
  let v := verification s in
  set_verification
    {| emailVerificationSent := emailVerificationSent v;
       phoneVerificationSent := phoneVerificationSent v;
       emailVerified := verified;
       phoneVerified := phoneVerified v;
       verificationMethod := verificationMethod v |} s.

Definition setPhoneVerified (verified : bool) (s : AuthState) : AuthState :=
  let v := verification s in
  set_verification
    {| emailVerificationSent := emailVerificationSent v;
       phoneVerificationSent := phoneVerificationSent v;
       emailVerified := emailVerified v;
       phoneVerified := verified;
       verificationMethod := verificationMethod v |} s.

Definition resetVerification (s : AuthState) : AuthState :=
  set_verification initialVerification s.

(** The argument of [updateProfile], a [Partial<User>]: [None] for a key
    that is absent.  For the two optional fields a key can be present with
    the value [undefined], which is [Some None]. *)
Record PartialUser : Type := mkPartialUser {
  new_id : option string;
  new_email : option string;
  new_name : option string;
  new_phone : option (option string);
  new_address : option (option string);
  new_joinDate : option string;
  new_isEmailVerified : option bool;
  new_isPhoneVerified : option bool
}.

Definition updateProfile (userData : PartialUser) (s : AuthState)
  : AuthState :=
  match user s with
  | Some u =>
      {| user :=
           Some {| id := default (id u) (new_id userData);
                   email := default (email u) (new_email userData);
                   name := default (name u) (new_name userData);
                   phone := default (phone u) (new_phone userData);
                   address := default (address u) (new_address userData);
                   joinDate := default (joinDate u) (new_joinDate userData);
                   isEmailVerified :=
                     default (isEmailVerified u) (new_isEmailVerified userData);
                   isPhoneVerified :=
                     default (isPhoneVerified u) (new_isPhoneVerified userData) |};
         isLoggedIn := isLoggedIn s;
         verification := verification s |}
  | None => s
  end.

(** A session as far as [signup] goes: the calls in the order they complete,
    each with the clock values it reads. *)
Record SignupCall : Type := mkSignupCall {
  at_now : Z;
  at_iso : string;
  with_data : SignupData
}.

Definition run_signup (c : SignupCall) (s : AuthState) : bool * AuthState :=
  signup (at_now c) (at_iso c) (with_data c) s.

(** The value each call returns and the [user.id] it leaves in the store. *)
Fixpoint signup_session (calls : list SignupCall) (s : AuthState)
  : list (bool * option string) :=
  match calls with
  | [] => []
  | c :: rest =>
      let '(r, s') := run_signup c s in
      (r, id <$> user s') :: signup_session rest s'
  end.

(** Two sign-ups whose delays end within the same millisecond, as when both
    are started from one event handler. *)
Definition same_millisecond_session : list SignupCall :=
  [ mkSignupCall 1700000001000 "2023-11-14T22:13:21.000Z"
      (mkSignup "alice@shop.kr" "secret1" "Alice" None);
    mkSignupCall 1700000001000 "2023-11-14T22:13:21.000Z"
      (mkSignup "bob@shop.kr" "secret2" "Bob" (Some "010-1234-5678")) ].

(** Two sign-ups one millisecond apart. *)
Definition next_millisecond_session : list SignupCall :=
  [ mkSignupCall 1700000001000 "2023-11-14T22:13:21.000Z"
      (mkSignup "alice@shop.kr" "secret1" "Alice" None);
    mkSignupCall 1700000001001 "2023-11-14T22:13:21.001Z"
      (mkSignup "bob@shop.kr" "secret2" "Bob" (Some "010-1234-5678")) ].

(** The part of a string before the first [sep]; a string without [sep] is
    its own such part, as [split (sep)[0]] has it. *)
Definition before_first (sep : ascii) (part s : string) : Prop :=
  ¬ In sep (list_ascii_of_string part) ∧
  (s = part ∨ ∃ rest, s = part ++ String sep rest).

(** [{...first, ...second}] on two arguments of [updateProfile]: a key of
    [second] wins. *)
Definition merge_partial (first second : PartialUser) : PartialUser :=
  {| new_id := new_id second ∪ new_id first;
     new_email := new_email second ∪ new_email first;
     new_name := new_name second ∪ new_name first;
     new_phone := new_phone second ∪ new_phone first;
     new_address := new_address second ∪ new_address first;
     new_joinDate := new_joinDate second ∪ new_joinDate first;
     new_isEmailVerified := new_isEmailVerified second ∪ new_isEmailVerified first;
     new_isPhoneVerified := new_isPhoneVerified second ∪ new_isPhoneVerified first |}.

(** A call of one of the six actions on the verification sub-record. *)
Inductive VerificationOp : Type :=
| SetVerificationMethod (method : VerificationMethod)
| SetEmailVerificationSent (sent : bool)
| SetPhoneVerificationSent (sent : bool)
| SetEmailVerified (verified : bool)
| SetPhoneVerified (verified : bool)
| ResetVerification.

Definition run_op (op : VerificationOp) (s : AuthState) : AuthState :=
  match op with
  | SetVerificationMethod method => setVerificationMethod method s
  | SetEmailVerificationSent sent => setEmailVerificationSent sent s
  | SetPhoneVerificationSent sent => setPhoneVerificationSent sent s
  | SetEmailVerified verified => setEmailVerified verified s
  | SetPhoneVerified verified => setPhoneVerified verified s
  | ResetVerification => resetVerification s
  end.

(** The calls of a list, first to last. *)
Definition run_ops (ops : list VerificationOp) (s : AuthState) : AuthState :=
  fold_left (fun s' op => run_op op s') ops s.

(** The field of the sub-record that a call writes; [None] for the reset,
    which writes them all. *)
Inductive VerificationField : Type :=
  F_method | F_emailSent | F_phoneSent | F_emailVerified | F_phoneVerified.

Definition written_field (op : VerificationOp) : option VerificationField :=
  match op with
  | SetVerificationMethod _ => Some F_method
  | SetEmailVerificationSent _ => Some F_emailSent
  | SetPhoneVerificationSent _ => Some F_phoneSent
  | SetEmailVerified _ => Some F_emailVerified
  | SetPhoneVerified _ => Some F_phoneVerified
  | ResetVerification => None
  end.

(** *** Persistence

    [persist] keeps, under the key ["auth-storage"], the part of the state
    that [partialize] selects. *)

Record Persisted : Type := mkPersisted {
  p_user : option User;
  p_isLoggedIn : bool
}.

Definition storage_name : string := "auth-storage".

Definition partialize (state : AuthState) : Persisted :=
  {| p_user := user state; p_isLoggedIn := isLoggedIn state |}.

(** The rest is zustand's [persist] middleware with its default options:
    after a [set] it writes [JSON.stringify ({ state: partialize (state),
    version: 0 })] under the store's key, and when the store is created it
    parses the entry back and merges its [state] over the initial state,
    [{...initial, ...persisted}].  The storage is seen through
    [JSON.parse]: a key holds the value its text parses to. *)

Definition Storage : Type := gmap string JS.value.

(** [JSON.stringify] leaves out a property whose value is [undefined]. *)
Definition optional_field (key : string) (x : option string)
    (fields : gmap string JS.value) : gmap string JS.value :=
  match x with
  | Some s => <[key := JS.VStr s]> fields
  | None => fields
  end.

Definition user_toJSON (u : User) : JS.value :=
  JS.VObj
    (optional_field "phone" (phone u)
      (optional_field "address" (address u)
        (<["id" := JS.VStr (id u)]>
          (<["email" := JS.VStr (email u)]>
            (<["name" := JS.VStr (name u)]>
              (<["joinDate" := JS.VStr (joinDate u)]>
                (<["isEmailVerified" := JS.VBool (isEmailVerified u)]>
                  (<["isPhoneVerified" := JS.VBool (isPhoneVerified u)]>
                    ∅)))))))).

Definition persisted_toJSON (p : Persisted) : JS.value :=
  JS.VObj
    (<["state" :=
         JS.VObj
           (<["user" := from_option user_toJSON JS.VNull (p_user p)]>
             (<["isLoggedIn" := JS.VBool (p_isLoggedIn p)]> ∅))]>
      (<["version" := JS.VNum 0]> ∅)).

(** Writing the durable subset of [s]. *)
Definition persist (s : AuthState) (st : Storage) : Storage :=
  <[storage_name := persisted_toJSON (partialize s)]> st.

(** Reading a parsed entry back at the types of the interfaces. *)
Definition string_field (fields : gmap string JS.value) (key : string)
  : option string :=
  match fields !! key with
  | Some (JS.VStr s) => Some s
  | _ => None
  end.

Definition bool_field (fields : gmap string JS.value) (key : string)
  : option bool :=
  match fields !! key with
  | Some (JS.VBool b) => Some b
  | _ => None
  end.

Definition optional_string_field (fields : gmap string JS.value)
    (key : string) : option (option string) :=
  match fields !! key with
  | None => Some None
  | Some (JS.VStr s) => Some (Some s)
  | Some _ => None
  end.

Definition user_ofJSON (v : JS.value) : option (option User) :=
  match v with
  | JS.VNull => Some None
  | JS.VObj fields =>
      i ← string_field fields "id";
      e ← string_field fields "email";
      n ← string_field fields "name";
      p ← optional_string_field fields "phone";
      a ← optional_string_field fields "address";
      j ← string_field fields "joinDate";
      ev ← bool_field fields "isEmailVerified";
      pv ← bool_field fields "isPhoneVerified";
      Some (Some (mkUser i e n p a j ev pv))
  | _ => None
  end.

Definition persisted_ofJSON (v : JS.value) : option Persisted :=
  match v with
  | JS.VObj entry =>
      match entry !! "state" with
      | Some (JS.VObj fields) =>
          u ← fields !! "user" ≫= user_ofJSON;
          l ← bool_field fields "isLoggedIn";
          Some (mkPersisted u l)
      | _ => None
      end
  | _ => None
  end.

(** [{...initial, ...persisted}]: the two persisted keys replace the initial
    ones, [verification] stays the initial one. *)
Definition merge (persisted : Persisted) (current : AuthState) : AuthState :=
  {| user := p_user persisted;
     isLoggedIn := p_isLoggedIn persisted;
     verification := verification current |}.

(** The state of a store created over the storage [st]: the initial state
    when the key is absent, the merge when the entry has the shape
    [persist] writes.  [None] stands for an entry of another shape, which
    this typed embedding does not describe. *)
Definition rehydrate (st : Storage) : option AuthState :=
  match st !! storage_name with
  | None => Some initialState
  | Some entry => p ← persisted_ofJSON entry; Some (merge p initialState)
  end.

End AuthStore.

(** ** The admin store *)

Module AdminStore.
Import JS.

(** *** The remote API *)

(** A call of [fetch]: the URL and the two options the store sets.  The
    [Content-Type] header is the same in every call.  [body] is the value
    the store hands to [JSON.stringify]. *)
Record Request : Type := mkRequest {
  url : string;
  method : option string;
  body : option value
}.

(** How a call of [fetch] followed by [response.json ()] can go. *)
Inductive FetchOutcome : Type :=
| Unreachable
| Response (ok : bool) (statusText : string) (json : option value).

(** The part of [apiCall] after the request is sent. *)
Definition api_result (o : FetchOutcome) : exn + value :=
  match o with
  | Unreachable => inl NetworkError
  | Response false statusText _ =>
      inl (Error ("API call failed: " ++ statusText))
  | Response true _ None => inl SyntaxError
  | Response true _ (Some v) => inr v
  end.

Inductive OrderStatus : Type :=
  pending | paid | shipping | delivered | cancelled.

Definition status_string (st : OrderStatus) : string :=
  match st with
  | pending => "pending"
  | paid => "paid"
  | shipping => "shipping"
  | delivered => "delivered"
  | cancelled => "cancelled"
  end.

(** *** The state *)

(** The data part of [AdminStore].  The slices filled from the API hold what
    the API sent, whatever the interfaces announce. *)
Record AdminState : Type := mkAdmin {
  isAdminLoggedIn : bool;
  adminUser : value;
  users : value;
  orders : value;
  products : value;
  dashboardStats : value
}.

(** The argument of [set]: the keys of the object literal, [None] for a key
    that is not written.  A key written with [undefined] is [Some VUndefined]
    and does overwrite the slice. *)
Record Partial : Type := mkPartial {
  set_isAdminLoggedIn : option bool;
  set_adminUser : option value;
  set_users : option value;
  set_orders : option value;
  set_products : option value;
  set_dashboardStats : option value
}.

(** [Object.assign ({}, state, partial)] *)
Definition assign (state : AdminState) (partial : Partial) : AdminState :=
  {| isAdminLoggedIn := default (isAdminLoggedIn state) (set_isAdminLoggedIn partial);
     adminUser := default (adminUser state) (set_adminUser partial);
     users := default (users state) (set_users partial);
     orders := default (orders state) (set_orders partial);
     products := default (products state) (set_products partial);
     dashboardStats := default (dashboardStats state) (set_dashboardStats partial) |}.

Definition zero : value := VNum 0.

Definition initialState : AdminState :=
  {| isAdminLoggedIn := false;
     adminUser := VNull;
     users := VArr [];
     orders := VArr [];
     products := VArr [];
     dashboardStats :=
       VObj
         (<["totalUsers" := zero]>
           (<["newUsersThisMonth" := zero]>
             (<["totalRevenue" := zero]>
               (<["revenueGrowth" := zero]>
                 (<["totalOrders" := zero]>
                   (<["ordersByStatus" :=
                        VObj
                          (<["pending" := zero]>
                            (<["paid" := zero]>
                              (<["shipping" := zero]>
                                (<["delivered" := zero]>
                                  (<["cancelled" := zero]> ∅)))))]>
                     (<["bestSellingProducts" := VArr []]>
                       (<["lowStockProducts" := VArr []]> ∅)))))))) |}.

(** *** Effects

    An action runs against the store and leaves a trace: the requests it
    sent, the messages it logged, and the actions it started without
    awaiting them.  Such an action is queued in [detached] and runs after the
    caller, see [settle]. *)

Inductive Action : Type := UpdateDashboardStats.

Inductive Event : Type :=
| Fetch (r : Request)
| ConsoleError (message : string)
| Invoke (a : Action).

Record World : Type := mkWorld {
  store : AdminState;
  trace : list Event;
  detached : list Action
}.

Definition M (A : Type) : Type := World -> (exn + A) * World.

Definition ret {A} (x : A) : M A := fun w => (inr x, w).

Definition throw {A} (e : exn) : M A := fun w => (inl e, w).

Definition bind {A B} (c : M A) (k : A -> M B) : M B :=
  fun w =>
    match c w with
    | (inr x, w') => k x w'
    | (inl e, w') => (inl e, w')
    end.

Notation "x <~ c ;; k" := (bind c (fun x => k))
  (at level 100, c at next level, right associativity).
Notation "c ;;; k" := (bind c (fun _ => k))
  (at level 100, right associativity).

(** [try { body } catch (error) { handler }] *)
Definition try_catch {A} (body : M A) (handler : exn -> M A) : M A :=
  fun w =>
    match body w with
    | (inr x, w') => (inr x, w')
    | (inl e, w') => handler e w'
    end.

(** A pure expression that may throw. *)
Definition lift {A} (r : exn + A) : M A := fun w => (r, w).

Definition emit (e : Event) : M unit :=
  fun w => (inr tt, {| store := store w; trace := trace w ++ [e];
                       detached := detached w |}).

(** [console.error (message, error)]: the trace keeps the message. *)
Definition console_error (message : string) : M unit :=
  emit (ConsoleError message).

Definition get : M AdminState := fun w => (inr (store w), w).

Definition put (s : AdminState) : M unit :=
  fun w => (inr tt, {| store := s; trace := trace w; detached := detached w |}).

(** [set (partial)] *)
Definition set_ (partial : Partial) : M unit :=
  s <~ get ;; put (assign s partial).

(** [set (state => partial)]: the updater runs inside [set] and what it
    throws comes out of [set]. *)
Definition set_fn (updater : AdminState -> exn + Partial) : M unit :=
  s <~ get ;; partial <~ lift (updater s) ;; put (assign s partial).

(** A call that is not awaited. *)
Definition spawn (a : Action) : M unit :=
  fun w => (inr tt, {| store := store w; trace := trace w ++ [Invoke a];
                       detached := detached w ++ [a] |}).

(** [Promise.all]: every promise of the array has been started; the join
    gives the results in order, or throws when one of them threw.  Which
    error comes out depends on the order of arrival; it only reaches
    [console.error], so the first in array order is taken. *)
Fixpoint promise_all {A} (promises : list (M A)) : M (list A) :=
  match promises with
  | [] => ret []
  | p :: rest =>
      fun w =>
        match p w with
        | (inr x, w1) =>
            match promise_all rest w1 with
            | (inr xs, w2) => (inr (x :: xs), w2)
            | (inl e, w2) => (inl e, w2)
            end
        | (inl e, w1) => (inl e, snd (promise_all rest w1))
        end
  end.

(** [v.map (f)]: only an array has a [map]. *)
Fixpoint map_elems (f : value -> exn + value) (elems : list value)
  : exn + list value :=
  match elems with
  | [] => inr []
  | x :: rest =>
      match f x with
      | inl e => inl e
      | inr y =>
          match map_elems f rest with
          | inl e => inl e
          | inr ys => inr (y :: ys)
          end
      end
  end.

Definition array_map (f : value -> exn + value) (v : value) : exn + value :=
  match v with
  | VArr elems =>
      match map_elems f elems with
      | inl e => inl e
      | inr elems' => inr (VArr elems')
      end
  | _ => inl TypeError
  end.

(** *** The actions *)

Section Actions.

(** What the network answers to each request. *)
Variable net : Request -> FetchOutcome.

Definition apiCall (r : Request) : M value :=
  emit (Fetch r) ;;; lift (api_result (net r)).

Definition GET (u : string) : Request :=
  {| url := u; method := None; body := None |}.

Definition updateDashboardStats : M unit :=
  try_catch
    (result <~ apiCall (GET "/api/admin/dashboard") ;;
     success <~ lift (getProp result P_success) ;;
     if truthy success then
       data <~ lift (getProp result P_data) ;;
       set_ {| set_isAdminLoggedIn := None; set_adminUser := None;
               set_users := None; set_orders := None; set_products := None;
               set_dashboardStats := Some data |}
     else ret tt)
    (fun _ => console_error "Failed to update dashboard stats:").

Definition initial_requests : list Request :=
  [ GET "/api/admin/dashboard"; GET "/api/admin/users";
    GET "/api/admin/products"; GET "/api/admin/orders" ].

Definition loadInitialData : M unit :=
  try_catch
    (results <~ promise_all (map apiCall initial_requests) ;;
     let dashboardResult := nth 0 results VUndefined in
     let usersResult := nth 1 results VUndefined in
     let productsResult := nth 2 results VUndefined in
     let ordersResult := nth 3 results VUndefined in
     dashboardData <~ lift (getProp dashboardResult P_data) ;;
     usersData <~ lift (getProp usersResult P_data) ;;
     productsData <~ lift (getProp productsResult P_data) ;;
     ordersData <~ lift (getProp ordersResult P_data) ;;
     set_ {| set_isAdminLoggedIn := None; set_adminUser := None;
             set_users := Some usersData;
             set_orders := Some ordersData;
             set_products := Some productsData;
             set_dashboardStats := Some dashboardData |})
    (fun _ => console_error "Failed to load initial data:").

Definition auth_request (email password : string) : Request :=
  {| url := "/api/admin/auth";
     method := Some "POST";
     body := Some (VObj (<["email" := VStr email]>
                          (<["password" := VStr password]> ∅))) |}.

Definition adminLogin (email password : string) : M bool :=
  try_catch
    (result <~ apiCall (auth_request email password) ;;
     success <~ lift (getProp result P_success) ;;
     if truthy success then
       adminUser <~ lift (getProp result P_user) ;;
       set_ {| set_isAdminLoggedIn := Some true;
               set_adminUser := Some adminUser;
               set_users := None; set_orders := None; set_products := None;
               set_dashboardStats := None |} ;;;
       loadInitialData ;;;
       ret true
     else ret false)
    (fun _ => console_error "Admin login error:" ;;; ret false).

Definition adminLogout : M unit :=
  set_ {| set_isAdminLoggedIn := Some false; set_adminUser := Some VNull;
          set_users := None; set_orders := None; set_products := None;
          set_dashboardStats := None |}.

Definition order_request (orderId : string) (status : OrderStatus) : Request :=
  {| url := "/api/admin/orders";
     method := Some "PATCH";
     body := Some (VObj (<["orderId" := VStr orderId]>
                          (<["status" := VStr (status_string status)]> ∅))) |}.

(** [(order) => (order.id === orderId ? { ...order, status } : order)] *)
Definition patch_order (orderId : string) (status : OrderStatus)
    (order : value) : exn + value :=
  match getProp order P_id with
  | inl e => inl e
  | inr i =>
      if strict_eq_string i orderId
      then inr (spread_with order "status" (VStr (status_string status)))
      else inr order
  end.

Definition updateOrderStatus (orderId : string) (status : OrderStatus)
  : M unit :=
  try_catch
    (result <~ apiCall (order_request orderId status) ;;
     success <~ lift (getProp result P_success) ;;
     if truthy success then
       set_fn (fun state =>
         match array_map (patch_order orderId status) (orders state) with
         | inl e => inl e
         | inr orders' =>
             inr {| set_isAdminLoggedIn := None; set_adminUser := None;
                    set_users := None; set_orders := Some orders';
                    set_products := None; set_dashboardStats := None |}
         end) ;;;
       spawn UpdateDashboardStats
     else ret tt)
    (fun _ => console_error "Failed to update order status:").

(** *** Running what was started without being awaited *)

Definition run_action (a : Action) : M unit :=
  match a with
  | UpdateDashboardStats => updateDashboardStats
  end.

(** Runs the queued actions in the order they were started. *)
Definition settle (w : World) : World :=
  fold_left
    (fun w' a => snd (run_action a w'))
    (detached w)
    {| store := store w; trace := trace w; detached := [] |}.

End Actions.

(** *** Vocabulary of the statements *)

(** The join of results that are already known: the values in order, or the
    first error. *)
Fixpoint join_results {A} (results : list (exn + A)) : exn + list A :=
  match results with
  | [] => inr []
  | inl e :: _ => inl e
  | inr x :: rest =>
      match join_results rest with
      | inl e => inl e
      | inr xs => inr (x :: xs)
      end
  end.

(** How many times an action was started without being awaited. *)
Fixpoint invocations (t : list Event) : nat :=
  match t with
  | [] => 0
  | Invoke UpdateDashboardStats :: rest => S (invocations rest)
  | _ :: rest => invocations rest
  end.

(** The state with [dashboardStats] replaced. *)
Definition with_stats (s : AdminState) (stats : value) : AdminState :=
  {| isAdminLoggedIn := isAdminLoggedIn s; adminUser := adminUser s;
     users := users s; orders := orders s; products := products s;
     dashboardStats := stats |}.

(** The state with [orders] replaced. *)
Definition with_orders (s : AdminState) (os : value) : AdminState :=
  {| isAdminLoggedIn := isAdminLoggedIn s; adminUser := adminUser s;
     users := users s; orders := os; products := products s;
     dashboardStats := dashboardStats s |}.

(** [order'] is what [updateOrderStatus (orderId, status)] makes of [order]:
    an order with that id has its [status] replaced and every other field
    kept, any other order is kept as it is. *)
Definition order_patched (orderId : string) (status : OrderStatus)
    (order order' : value) : Prop :=
  (getProp order P_id = inr (VStr orderId) ->
   exists fields fields' : gmap string value,
     order = VObj fields /\ order' = VObj fields' /\
     fields' !! "status" = Some (VStr (status_string status)) /\
     forall key : string, key <> "status" -> fields' !! key = fields !! key) /\
  (getProp order P_id <> inr (VStr orderId) -> order' = order).

(** *** Sample data *)

Definition order_json (orderId status : string) (totalAmount : N) : value :=
  VObj
    (<["id" := VStr orderId]>
      (<["userId" := VStr "u-7"]>
        (<["userName" := VStr "Kim"]>
          (<["userEmail" := VStr "kim@shop.kr"]>
            (<["items" := VArr []]>
              (<["totalAmount" := VNum totalAmount]>
                (<["status" := VStr status]>
                  (<["orderDate" := VStr "2024-05-01T09:00:00.000Z"]>
                    (<["deliveryAddress" := VStr "Seoul"]> ∅))))))))).

Definition user_json (userId userName : string) : value :=
  VObj
    (<["id" := VStr userId]>
      (<["email" := VStr "kim@shop.kr"]>
        (<["name" := VStr userName]>
          (<["joinDate" := VStr "2024-01-01T00:00:00.000Z"]>
            (<["isActive" := VBool true]>
              (<["role" := VStr "user"]> ∅)))))).

(** A store that holds data from an earlier load. *)
Definition cached_state : AdminState :=
  {| isAdminLoggedIn := true;
     adminUser := user_json "a-1" "Admin";
     users := VArr [user_json "u-7" "Kim"];
     orders := VArr [ order_json "o-1" "pending" 0x40d86a0000000000;
                      order_json "o-2" "paid" 0x40c7700000000000 ];
     products := VArr [];
     dashboardStats := dashboardStats initialState |}.

Definition cached_world : World :=
  {| store := cached_state; trace := []; detached := [] |}.

(** A 200 answer [{ success: true, data }]. *)
Definition accepted (data : value) : FetchOutcome :=
  Response true "OK"
    (Some (VObj (<["success" := VBool true]> (<["data" := data]> ∅)))).

(** A 200 answer [{ success: false, error: "Unauthorized" }]. *)
Definition refused : FetchOutcome :=
  Response true "OK"
    (Some (VObj (<["success" := VBool false]>
                  (<["error" := VStr "Unauthorized"]> ∅)))).

(** Every request is answered, and refused. *)
Definition refusing_net (r : Request) : FetchOutcome := refused.

(** The products request fails in [fetch]; the other three are accepted. *)
Definition products_down_net (r : Request) : FetchOutcome :=
  if String.eqb (url r) "/api/admin/products" then Unreachable
  else accepted (VArr [user_json "u-9" "Lee"]).

(** The credentials are accepted, then the network goes away. *)
Definition login_only_net (r : Request) : FetchOutcome :=
  if String.eqb (url r) "/api/admin/auth" then
    Response true "OK"
      (Some (VObj (<["success" := VBool true]>
                    (<["user" := user_json "a-1" "Admin"]> ∅))))
  else Unreachable.

(** Every request is accepted; a [GET] is answered with an empty object. *)
Definition accepting_net (r : Request) : FetchOutcome :=
  accepted (VObj ∅).

(** *** User and product management *)

(** [v.filter (keep)]: only an array has a [filter]. *)
Fixpoint filter_elems (keep : value -> exn + bool) (elems : list value)
  : exn + list value :=
  match elems with
  | [] => inr []
  | x :: rest =>
      match keep x with
      | inl e => inl e
      | inr b =>
          match filter_elems keep rest with
          | inl e => inl e
          | inr ys => inr (if b then x :: ys else ys)
          end
      end
  end.

Definition array_filter (keep : value -> exn + bool) (v : value)
  : exn + value :=
  match v with
  | VArr elems =>
      match filter_elems keep elems with
      | inl e => inl e
      | inr elems' => inr (VArr elems')
      end
  | _ => inl TypeError
  end.

Section Management.

Variable net : Request -> FetchOutcome.

(** [encodeURIComponent], which throws on a lone surrogate, and the
    conversion of a number to a string in a template literal. *)
Variable encodeURIComponent : string -> exn + string.
Variable number_to_string : N -> string.

Definition getUsers : M value := s <~ get ;; ret (users s).

Definition getProducts : M value := s <~ get ;; ret (products s).

Definition getOrders : M value := s <~ get ;; ret (orders s).

Definition searchUsers (query : string) : M value :=
  try_catch
    (encoded <~ lift (encodeURIComponent query) ;;
     result <~ apiCall net (GET ("/api/admin/users?search=" ++ encoded)) ;;
     success <~ lift (getProp result P_success) ;;
     if truthy success then lift (getProp result P_data) else ret (VArr []))
    (fun _ => console_error "Failed to search users:" ;;; ret (VArr [])).

Definition user_request (userId : string) (isActive : bool) : Request :=
  {| url := "/api/admin/users";
     method := Some "PATCH";
     body := Some (VObj (<["userId" := VStr userId]>
                          (<["isActive" := VBool isActive]> ∅))) |}.

(** [(user) => (user.id === userId ? { ...user, isActive } : user)] *)
Definition patch_user (userId : string) (isActive : bool) (user : value)
  : exn + value :=
  match getProp user P_id with
  | inl e => inl e
  | inr i =>
      if strict_eq_string i userId
      then inr (spread_with user "isActive" (VBool isActive))
      else inr user
  end.

Definition updateUserStatus (userId : string) (isActive : bool) : M unit :=
  try_catch
    (result <~ apiCall net (user_request userId isActive) ;;
     success <~ lift (getProp result P_success) ;;
     if truthy success then
       set_fn (fun state =>
         match array_map (patch_user userId isActive) (users state) with
         | inl e => inl e
         | inr users' =>
             inr {| set_isAdminLoggedIn := None; set_adminUser := None;
                    set_users := Some users'; set_orders := None;
                    set_products := None; set_dashboardStats := None |}
         end)
     else ret tt)
    (fun _ => console_error "Failed to update user status:").

Definition add_request (productData : value) : Request :=
  {| url := "/api/admin/products";
     method := Some "POST";
     body := Some productData |}.

Definition addProduct (productData : value) : M unit :=
  try_catch
    (result <~ apiCall net (add_request productData) ;;
     success <~ lift (getProp result P_success) ;;
     if truthy success then
       set_fn (fun state =>
         match iterate (products state) with
         | inl e => inl e
         | inr elems =>
             match getProp result P_data with
             | inl e => inl e
             | inr data =>
                 inr {| set_isAdminLoggedIn := None; set_adminUser := None;
                        set_users := None; set_orders := None;
                        set_products := Some (VArr (elems ++ [data]));
                        set_dashboardStats := None |}
             end
         end)
     else ret tt)
    (fun _ => console_error "Failed to add product:").

(** The body [{ id: productId, ...updates }]: an [id] among the updates
    replaces the first one. *)
Definition update_request (productId : N) (updates : gmap string value)
  : Request :=
  {| url := "/api/admin/products";
     method := Some "PUT";
     body := Some (VObj (updates ∪ {["id" := VNum productId]})) |}.

(** [(product) =>
      product.id === productId ? { ...product, ...updates } : product] *)
Definition merge_product (productId : N) (updates : gmap string value)
    (product : value) : exn + value :=
  match getProp product P_id with
  | inl e => inl e
  | inr i =>
      if strict_eq_number i productId
      then inr (VObj (updates ∪ own_fields product))
      else inr product
  end.

Definition updateProduct (productId : N) (updates : gmap string value)
  : M unit :=
  try_catch
    (result <~ apiCall net (update_request productId updates) ;;
     success <~ lift (getProp result P_success) ;;
     if truthy success then
       set_fn (fun state =>
         match array_map (merge_product productId updates) (products state) with
         | inl e => inl e
         | inr products' =>
             inr {| set_isAdminLoggedIn := None; set_adminUser := None;
                    set_users := None; set_orders := None;
                    set_products := Some products';
                    set_dashboardStats := None |}
         end)
     else ret tt)
    (fun _ => console_error "Failed to update product:").

Definition delete_request (productId : N) : Request :=
  {| url := "/api/admin/products?id=" ++ number_to_string productId;
     method := Some "DELETE";
     body := None |}.

(** [(product) => product.id !== productId] *)
Definition other_product (productId : N) (product : value) : exn + bool :=
  match getProp product P_id with
  | inl e => inl e
  | inr i => inr (negb (strict_eq_number i productId))
  end.

Definition deleteProduct (productId : N) : M unit :=
  try_catch
    (result <~ apiCall net (delete_request productId) ;;
     success <~ lift (getProp result P_success) ;;
     if truthy success then
       set_fn (fun state =>
         match array_filter (other_product productId) (products state) with
         | inl e => inl e
         | inr products' =>
             inr {| set_isAdminLoggedIn := None; set_adminUser := None;
                    set_users := None; set_orders := None;
                    set_products := Some products';
                    set_dashboardStats := None |}
         end)
     else ret tt)
    (fun _ => console_error "Failed to delete product:").

End Management.

(** *** Vocabulary of the statements, continued *)

(** The requests of a trace. *)
Fixpoint requests (t : list Event) : list Request :=
  match t with
  | [] => []
  | Fetch r :: rest => r :: requests rest
  | _ :: rest => requests rest
  end.

(** The remote call of a mutation went through and reported success. *)
Definition acknowledged (net : Request -> FetchOutcome) (r : Request) : Prop :=
  exists result success : value,
    api_result (net r) = inr result /\
    getProp result P_success = inr success /\
    truthy success = true.

(** The remote call threw, or its answer has no truthy [success]. *)
Definition declined (net : Request -> FetchOutcome) (r : Request) : Prop :=
  match api_result (net r) with
  | inl _ => True
  | inr result =>
      match getProp result P_success with
      | inl _ => True
      | inr success => truthy success = false
      end
  end.

(** No element is [null] or [undefined]: reading a property of an element
    does not throw. *)
Definition all_readable (elems : list value) : Prop :=
  Forall (fun x => x <> VNull /\ x <> VUndefined) elems.

(** The element has the given string, or the given number, as its [id]. *)
Definition has_string_id (i : string) (x : value) : bool :=
  match getProp x P_id with
  | inr v => strict_eq_string v i
  | inl _ => false
  end.

Definition has_number_id (i : N) (x : value) : bool :=
  match getProp x P_id with
  | inr v => strict_eq_number v i
  | inl _ => false
  end.

(** [user'] is what [updateUserStatus (userId, isActive)] makes of [user]. *)
Definition user_patched (userId : string) (isActive : bool)
    (user user' : value) : Prop :=
  (has_string_id userId user = true ->
   exists fields fields' : gmap string value,
     user = VObj fields /\ user' = VObj fields' /\
     fields' !! "isActive" = Some (VBool isActive) /\
     forall key : string, key <> "isActive" -> fields' !! key = fields !! key) /\
  (has_string_id userId user = false -> user' = user).

(** [product'] is what [updateProduct (productId, updates)] makes of
    [product]: on a product with that id every key of [updates] takes the
    value given there and every other key is kept. *)
Definition product_merged (productId : N) (updates : gmap string value)
    (product product' : value) : Prop :=
  (has_number_id productId product = true ->
   exists fields fields' : gmap string value,
     product = VObj fields /\ product' = VObj fields' /\
     forall key : string,
       fields' !! key = match updates !! key with
                        | Some x => Some x
                        | None => fields !! key
                        end) /\
  (has_number_id productId product = false -> product' = product).

(** The five actions that change remote data, and the refresh of the
    statistics: the actions of the form
    [try { result = await apiCall (...); if (result.success) set (...) }
     catch { console.error (...) }]. *)
Inductive Mutation : Type :=
| DoUpdateDashboardStats
| DoUpdateUserStatus (userId : string) (isActive : bool)
| DoAddProduct (productData : value)
| DoUpdateProduct (productId : N) (updates : gmap string value)
| DoDeleteProduct (productId : N)
| DoUpdateOrderStatus (orderId : string) (status : OrderStatus).

Definition run_mutation (net : Request -> FetchOutcome)
    (number_to_string : N -> string) (m : Mutation) : M unit :=
  match m with
  | DoUpdateDashboardStats => updateDashboardStats net
  | DoUpdateUserStatus userId isActive => updateUserStatus net userId isActive
  | DoAddProduct productData => addProduct net productData
  | DoUpdateProduct productId updates => updateProduct net productId updates
  | DoDeleteProduct productId => deleteProduct net number_to_string productId
  | DoUpdateOrderStatus orderId status => updateOrderStatus net orderId status
  end.

(** The request an action sends. *)
Definition mutation_request (number_to_string : N -> string) (m : Mutation)
  : Request :=
  match m with
  | DoUpdateDashboardStats => GET "/api/admin/dashboard"
  | DoUpdateUserStatus userId isActive => user_request userId isActive
  | DoAddProduct productData => add_request productData
  | DoUpdateProduct productId updates => update_request productId updates
  | DoDeleteProduct productId => delete_request number_to_string productId
  | DoUpdateOrderStatus orderId status => order_request orderId status
  end.

(** The slices of the state that come from the API. *)
Inductive Slice : Type := S_users | S_orders | S_products | S_dashboardStats.

Definition slice (sl : Slice) (s : AdminState) : value :=
  match sl with
  | S_users => users s
  | S_orders => orders s
  | S_products => products s
  | S_dashboardStats => dashboardStats s
  end.

(** The slice an action writes. *)
Definition mutation_slice (m : Mutation) : Slice :=
  match m with
  | DoUpdateDashboardStats => S_dashboardStats
  | DoUpdateUserStatus _ _ => S_users
  | DoAddProduct _ | DoUpdateProduct _ _ | DoDeleteProduct _ => S_products
  | DoUpdateOrderStatus _ _ => S_orders
  end.

(** The world with another store. *)
Definition with_store (w : World) (s : AdminState) : World :=
  {| store := s; trace := trace w; detached := detached w |}.

(** The state with [users] replaced. *)
Definition with_users (s : AdminState) (us : value) : AdminState :=
  {| isAdminLoggedIn := isAdminLoggedIn s; adminUser := adminUser s;
     users := us; orders := orders s; products := products s;
     dashboardStats := dashboardStats s |}.

(** The state with [products] replaced. *)
Definition with_products (s : AdminState) (ps : value) : AdminState :=
  {| isAdminLoggedIn := isAdminLoggedIn s; adminUser := adminUser s;
     users := users s; orders := orders s; products := ps;
     dashboardStats := dashboardStats s |}.

(** More sample data. *)

Definition product_json (productId : N) (name : string) (stock : N) : value :=
  VObj
    (<["id" := VNum productId]>
      (<["name" := VStr name]>
        (<["price" := VNum 0x40c7700000000000]>
          (<["category" := VStr "tea"]>
            (<["stock" := VNum stock]>
              (<["isActive" := VBool true]>
                (<["createdDate" := VStr "2024-03-01T00:00:00.000Z"]>
                  (<["sales" := VNum 0]> ∅)))))))).

(** The doubles 1, 2 and 3. *)
Definition one : N := 0x3ff0000000000000.
Definition two : N := 0x4000000000000000.
Definition three : N := 0x4008000000000000.

(** A store with two products. *)
Definition stocked_state : AdminState :=
  with_products cached_state
    (VArr [product_json one "Green tea" three; product_json two "Oolong" two]).

Definition stocked_world : World :=
  {| store := stocked_state; trace := []; detached := [] |}.

(** Every request is accepted and answered with a third product. *)
Definition echo_net (r : Request) : FetchOutcome :=
  accepted (product_json three "Black tea" one).

(** Nothing is reachable. *)
Definition offline_net (r : Request) : FetchOutcome := Unreachable.

(** *** Persistence

    [persist] keeps, under the key ["admin-storage"], the part of the state
    that [partialize] selects; the middleware is the one of the identity
    store, and the storage is again seen through [JSON.parse]. *)

Definition storage_name : string := "admin-storage".

Definition partialize (state : AdminState) : gmap string value :=
  <["isAdminLoggedIn" := VBool (isAdminLoggedIn state)]>
    (<["adminUser" := adminUser state]>
      (<["users" := users state]>
        (<["orders" := orders state]>
          (<["products" := products state]> ∅)))).

(** Writing [JSON.stringify ({ state: partialize (s), version: 0 })]; an
    object always has a JSON text. *)
Definition persist (s : AdminState) (st : gmap string value)
  : gmap string value :=
  match reparse (VObj (<["state" := VObj (partialize s)]>
                        (<["version" := VNum 0]> ∅))) with
  | Some entry => <[storage_name := entry]> st
  | None => st
  end.

(** [{...current, ...persisted}] at the type of the state: [None] when
    [isAdminLoggedIn] is stored as something else than a boolean. *)
Definition merge (persisted : gmap string value) (current : AdminState)
  : option AdminState :=
  logged ← match persisted !! "isAdminLoggedIn" with
           | None => Some (isAdminLoggedIn current)
           | Some (VBool b) => Some b
           | Some _ => None
           end;
  Some {| isAdminLoggedIn := logged;
          adminUser := default (adminUser current) (persisted !! "adminUser");
          users := default (users current) (persisted !! "users");
          orders := default (orders current) (persisted !! "orders");
          products := default (products current) (persisted !! "products");
          dashboardStats :=
            default (dashboardStats current) (persisted !! "dashboardStats") |}.

(** The state of a store created over the storage [st]; [None] for an entry
    that is not of the shape [persist] writes. *)
Definition rehydrate (st : gmap string value) : option AdminState :=
  match st !! storage_name with
  | None => Some initialState
  | Some (VObj entry) =>
      match entry !! "state" with
      | Some (VObj persisted) => merge persisted initialState
      | _ => None
      end
  | Some _ => None
  end.

(** Encoders for the samples. They are the real ones on what the samples
    use only: a query that needs no escape, and the product ids above or
    a NaN. *)
Definition sample_encode (query : string) : exn + string := inr query.

Definition sample_number_to_string (bits : N) : string :=
  if number_is_nan bits then "NaN"
  else if (bits =? one)%N then "1"
  else if (bits =? two)%N then "2"
  else if (bits =? three)%N then "3"
  else "0".

End AdminStore.

(** * Properties *)

(** ** JavaScript fragment *)

Lemma split_not_nil (sep : ascii) (s : string) : JS.split sep s <> [].
Proof.
  destruct s as [|c rest]; simpl; [discriminate|].
  destruct (Ascii.eqb c sep); [discriminate|].
  destruct (JS.split sep rest); discriminate.
Qed.

Lemma first_piece_split (sep : ascii) (s : string) :
  AuthStore.before_first sep (JS.first_piece (JS.split sep s)) s.
Proof.
  induction s as [|c rest IH]; simpl.
  - split; [tauto | now left].
  - destruct (Ascii.eqb_spec c sep) as [->|Hne].
    + split; [simpl; tauto | right; now exists rest].
    + destruct IH as [Hnot Hcut].
      pose proof (split_not_nil sep rest) as Hnil.
      destruct (JS.split sep rest) as [|piece pieces]; [congruence|].
      simpl in *. split.
      * intros [Heq|Hin]; [congruence | tauto].
      * destruct Hcut as [->|[tail ->]]; [now left|].
        right. now exists tail.
Qed.

Lemma Number_toString_inj (a b : Z) :
  JS.Number_toString a = JS.Number_toString b -> a = b.
Proof.
  unfold JS.Number_toString. intros Heq.
  apply DecimalZ.to_int_inj.
  pose proof (NilEmpty.isi (Z.to_int a)) as Ha.
  pose proof (NilEmpty.isi (Z.to_int b)) as Hb.
  rewrite Heq in Ha. congruence.
Qed.

Example split_email : JS.split "@" "kim@shop.kr" = ["kim"; "shop.kr"].
Proof. reflexivity. Qed.

Example split_no_separator : JS.split "@" "kim" = ["kim"].
Proof. reflexivity. Qed.

Example split_two_separators : JS.split "@" "a@b@c" = ["a"; "b"; "c"].
Proof. reflexivity. Qed.

Example split_empty : JS.split "@" EmptyString = [EmptyString].
Proof. reflexivity. Qed.

Example toString_now : JS.Number_toString 1700000000123 = "1700000000123".
Proof. reflexivity. Qed.

Example toString_zero : JS.Number_toString 0 = "0".
Proof. reflexivity. Qed.

Example toString_negative : JS.Number_toString (-42) = "-42".
Proof. reflexivity. Qed.

(** ** Identity store *)

Section AuthStoreFacts.
Import AuthStore.

Lemma login_guard_true (email password : string) :
  email <> EmptyString -> (6 <= String.length password)%nat ->
  JS.string_truthy email && (6 <=? String.length password)%nat = true.
Proof.
  intros Hemail Hlen. apply andb_true_intro. split.
  - destruct email; [congruence | reflexivity].
  - now apply Nat.leb_le.
Qed.

Lemma login_guard_false (email password : string) :
  email = EmptyString \/ (String.length password < 6)%nat ->
  JS.string_truthy email && (6 <=? String.length password)%nat = false.
Proof.
  intros [-> | Hlen]; [reflexivity|].
  apply andb_false_intro2. apply Nat.leb_gt. lia.
Qed.

(** C3. With a non-empty email and a password of at least six characters,
    [login] returns true and stores, with [isLoggedIn] true, a user whose
    id is "1", whose email is verified and phone is not, and whose name is
    the part of the email before its first '@' (the whole email when it
    has none). *)
Theorem login_accepts (iso email password : string) (s : AuthState) :
  email <> EmptyString -> (6 <= String.length password)%nat ->
  exists u : User,
    login iso email password s = (true, mkAuth (Some u) true (verification s)) /\
    before_first "@" (name u) email /\
    id u = "1" /\
    AuthStore.email u = email /\
    isEmailVerified u = true /\
    isPhoneVerified u = false.
Proof.
  intros Hemail Hlen. unfold login.
  rewrite (login_guard_true email password Hemail Hlen).
  eexists. split; [reflexivity|]. simpl.
  split; [apply first_piece_split|]. repeat split.
Qed.

Lemma login_accepts_witness :
  exists u : User,
    login "2024-05-01T09:00:00.000Z" "kim@shop.kr" "secret1" initialState
      = (true, mkAuth (Some u) true initialVerification) /\
    name u = "kim".
Proof.
  destruct (login_accepts "2024-05-01T09:00:00.000Z" "kim@shop.kr" "secret1"
              initialState) as (u & Hrun & _); [discriminate | simpl; lia |].
  exists u. split; [exact Hrun|].
  vm_compute in Hrun. now inversion Hrun.
Defined.

(** C4. With an empty email or a password shorter than six characters,
    [login] returns false and the state, so its [user] and [isLoggedIn],
    is the one it found. *)
Theorem login_rejects (iso email password : string) (s : AuthState) :
  email = EmptyString \/ (String.length password < 6)%nat ->
  login iso email password s = (false, s) /\
  user (snd (login iso email password s)) = user s /\
  isLoggedIn (snd (login iso email password s)) = isLoggedIn s.
Proof.
  intros Hbad. unfold login.
  rewrite (login_guard_false email password Hbad). repeat split.
Qed.

Lemma login_rejects_witness :
  login "2024-05-01T09:00:00.000Z" "kim@shop.kr" "12345" initialState
    = (false, initialState).
Proof.
  apply (login_rejects "2024-05-01T09:00:00.000Z" "kim@shop.kr" "12345"
           initialState).
  right. simpl. lia.
Defined.

(** [signup] has no guard: it returns true from every state. *)
Lemma signup_returns_true (now : Z) (iso : string) (d : SignupData)
    (s : AuthState) :
  fst (signup now iso d s) = true.
Proof. reflexivity. Qed.

Lemma signup_session_spec (calls : list SignupCall) (s : AuthState) :
  signup_session calls s
  = map (fun c => (true, Some (JS.Number_toString (at_now c)))) calls.
Proof.
  revert s. induction calls as [|c rest IH]; intros s; simpl; [reflexivity|].
  now rewrite IH.
Qed.

(** C2, as stated, fails: two calls that read the same millisecond leave
    the same [user.id]. *)
Lemma signup_ids_collide :
  ~ (forall i j r1 r2,
       i <> j ->
       signup_session same_millisecond_session initialState !! i = Some r1 ->
       signup_session same_millisecond_session initialState !! j = Some r2 ->
       snd r1 <> snd r2).
Proof.
  intros Hall.
  apply (Hall 0%nat 1%nat (true, Some "1700000001000") (true, Some "1700000001000"));
    [lia | reflexivity | reflexivity | reflexivity].
Qed.

(** C2, amended. Every call of [signup] returns true and leaves as
    [user.id] the decimal form of the millisecond clock it read; the ids
    of two calls of a session are equal exactly when the two calls read the
    same millisecond. *)
Theorem signup_ids_follow_clock (calls : list SignupCall) (s : AuthState)
    (i j : nat) (ci cj : SignupCall) :
  calls !! i = Some ci -> calls !! j = Some cj ->
  exists idi idj : string,
    signup_session calls s !! i = Some (true, Some idi) /\
    signup_session calls s !! j = Some (true, Some idj) /\
    idi = JS.Number_toString (at_now ci) /\
    idj = JS.Number_toString (at_now cj) /\
    (idi = idj <-> at_now ci = at_now cj).
Proof.
  intros Hi Hj. rewrite signup_session_spec.
  exists (JS.Number_toString (at_now ci)), (JS.Number_toString (at_now cj)).
  rewrite !list_lookup_fmap, Hi, Hj. simpl.
  repeat split; [apply Number_toString_inj | congruence].
Qed.

Lemma signup_ids_follow_clock_witness :
  exists idi idj : string,
    signup_session next_millisecond_session initialState !! 0%nat
      = Some (true, Some idi) /\
    signup_session next_millisecond_session initialState !! 1%nat
      = Some (true, Some idj) /\
    idi <> idj.
Proof.
  destruct (signup_ids_follow_clock next_millisecond_session initialState
              0%nat 1%nat _ _ eq_refl eq_refl)
    as (idi & idj & H0 & H1 & _ & _ & Hiff).
  exists idi, idj. split; [exact H0|]. split; [exact H1|].
  intros Heq. apply Hiff in Heq. simpl in Heq. lia.
Defined.

(** C8. [logout] clears the user, the logged-in flag and the verification
    sub-record, and a second [logout] changes nothing more. *)
Theorem logout_idempotent (s : AuthState) :
  logout (logout s) = logout s /\
  user (logout s) = None /\
  isLoggedIn (logout s) = false /\
  verification (logout s)
  = {| emailVerificationSent := false;
       phoneVerificationSent := false;
       emailVerified := false;
       phoneVerified := false;
       verificationMethod := None |}.
Proof. repeat split. Qed.

(** C9. [login] and [signup], whatever they are given and whether they
    succeed or not, keep the verification sub-record, and so does the one
    other action that is neither [logout] nor a verification setter,
    [updateProfile]. *)
Theorem verification_frame (s : AuthState) :
  (forall iso email password,
     verification (snd (login iso email password s)) = verification s) /\
  (forall now iso d,
     verification (snd (signup now iso d s)) = verification s) /\
  (forall userData,
     verification (updateProfile userData s) = verification s).
Proof.
  split; [|split].
  - intros iso email password. unfold login.
    destruct (JS.string_truthy email && (6 <=? String.length password)%nat);
      reflexivity.
  - reflexivity.
  - intros userData. unfold updateProfile. destruct (user s); reflexivity.
Qed.

Lemma user_roundtrip (u : User) : user_ofJSON (user_toJSON u) = Some (Some u).
Proof.
  destruct u as [i e n [p|] [a|] j ev pv]; reflexivity.
Qed.

Lemma persisted_roundtrip (p : Persisted) :
  persisted_ofJSON (persisted_toJSON p) = Some p.
Proof.
  destruct p as [[u|] l]; unfold persisted_toJSON, persisted_ofJSON;
    rewrite !lookup_insert_eq; cbn -[user_ofJSON user_toJSON].
  - rewrite user_roundtrip. reflexivity.
  - reflexivity.
Qed.

(** C7. Writing the durable subset of a state and creating the store again
    from the storage gives back the same [user] and [isLoggedIn], with the
    verification sub-record at its initial value: no method and the four
    flags false. *)
Theorem persist_rehydrate (s : AuthState) (st : Storage) :
  rehydrate (persist s st)
  = Some {| user := user s;
            isLoggedIn := isLoggedIn s;
            verification :=
              {| emailVerificationSent := false;
                 phoneVerificationSent := false;
                 emailVerified := false;
                 phoneVerified := false;
                 verificationMethod := None |} |}.
Proof.
  unfold rehydrate, persist, Storage in *. rewrite lookup_insert_eq.
  rewrite persisted_roundtrip. reflexivity.
Qed.

End AuthStoreFacts.

(** ** Admin store *)

Section AdminStoreFacts.
Import JS AdminStore.

Lemma apiCall_run (net : Request -> FetchOutcome) (r : Request) (w : World) :
  apiCall net r w
  = (api_result (net r),
     {| store := store w; trace := trace w ++ [Fetch r];
        detached := detached w |}).
Proof. reflexivity. Qed.

(** The join sends every request, and its outcome is the join of the four
    outcomes. *)
Lemma promise_all_apiCall (net : Request -> FetchOutcome)
    (rs : list Request) (w : World) :
  promise_all (map (apiCall net) rs) w
  = (join_results (map (fun r => api_result (net r)) rs),
     {| store := store w; trace := trace w ++ map Fetch rs;
        detached := detached w |}).
Proof.
  revert w. induction rs as [|r rest IH]; intros w; cbn [promise_all map].
  - unfold ret. simpl. rewrite app_nil_r. now destruct w.
  - rewrite apiCall_run. destruct (api_result (net r)) as [e|v].
    + rewrite IH. simpl. now rewrite <- app_assoc.
    + rewrite IH. simpl. rewrite <- app_assoc. simpl.
      now destruct (join_results (map (fun r0 => api_result (net r0)) rest)).
Qed.

Lemma join_results_error {A} (results : list (exn + A)) (e : exn) :
  In (inl e) results -> exists e', join_results results = inl e'.
Proof.
  induction results as [|[e0|x] rest IH]; simpl; intros Hin.
  - contradiction.
  - now exists e0.
  - destruct Hin as [Heq|Hin]; [discriminate|].
    destruct (IH Hin) as [e' ->]. now exists e'.
Qed.

(** [loadInitialData] catches what its body throws. *)
Lemma loadInitialData_returns (net : Request -> FetchOutcome) (w : World) :
  fst (loadInitialData net w) = inr tt.
Proof.
  unfold loadInitialData, try_catch.
  match goal with |- context [match ?body w with _ => _ end] =>
    destruct (body w) as [[e|[]] w'] end; reflexivity.
Qed.

(** C5. When one of the four requests of [loadInitialData] throws, the
    store is left as it was, so none of [dashboardStats], [users],
    [products] and [orders] is updated, whatever the other three requests
    answered; the failure is logged and the action returns normally. *)
Theorem loadInitialData_all_or_nothing (net : Request -> FetchOutcome)
    (w : World) (r : Request) (e : exn) :
  In r initial_requests ->
  api_result (net r) = inl e ->
  loadInitialData net w
  = (inr tt,
     {| store := store w;
        trace := trace w ++ map Fetch initial_requests
                   ++ [ConsoleError "Failed to load initial data:"];
        detached := detached w |}).
Proof.
  intros Hin Hthrow.
  destruct (join_results_error
              (map (fun r0 => api_result (net r0)) initial_requests) e)
    as [e' Hjoin].
  { rewrite <- Hthrow. apply (in_map (fun r0 => api_result (net r0))), Hin. }
  unfold loadInitialData, try_catch, bind.
  rewrite promise_all_apiCall, Hjoin.
  unfold console_error, emit. simpl. now rewrite <- app_assoc.
Qed.

Lemma loadInitialData_all_or_nothing_witness :
  store (snd (loadInitialData products_down_net cached_world)) = cached_state.
Proof.
  rewrite (loadInitialData_all_or_nothing products_down_net cached_world
             (GET "/api/admin/products") NetworkError).
  - reflexivity.
  - simpl. tauto.
  - reflexivity.
Defined.

(** When the four requests are answered, the four slices take the [data]
    of the answers; [success] is not looked at. *)
Lemma loadInitialData_resolved (net : Request -> FetchOutcome) (w : World)
    (rd ru rp ro dd ud pd od : value) :
  api_result (net (GET "/api/admin/dashboard")) = inr rd ->
  api_result (net (GET "/api/admin/users")) = inr ru ->
  api_result (net (GET "/api/admin/products")) = inr rp ->
  api_result (net (GET "/api/admin/orders")) = inr ro ->
  getProp rd P_data = inr dd -> getProp ru P_data = inr ud ->
  getProp rp P_data = inr pd -> getProp ro P_data = inr od ->
  store (snd (loadInitialData net w))
  = {| isAdminLoggedIn := isAdminLoggedIn (store w);
       adminUser := adminUser (store w);
       users := ud; orders := od; products := pd; dashboardStats := dd |}.
Proof.
  intros Hd Hu Hp Ho Hdd Hud Hpd Hod.
  unfold loadInitialData, try_catch, bind.
  rewrite promise_all_apiCall. unfold initial_requests.
  cbn [map join_results]. rewrite Hd, Hu, Hp, Ho.
  cbn [join_results nth]. unfold lift. rewrite Hdd, Hud, Hpd, Hod.
  reflexivity.
Qed.

(** C1 fails on the code. With every request answered 200 and
    [{ success: false, error }], [loadInitialData] still writes the four
    slices: the cached users, orders, products and statistics are replaced
    by [undefined]. [updateDashboardStats], which reads the same dashboard
    endpoint, does test [success] and keeps the statistics. *)
Theorem loadInitialData_writes_refused_answers :
  store (snd (loadInitialData refusing_net cached_world))
  = {| isAdminLoggedIn := true;
       adminUser := adminUser cached_state;
       users := VUndefined;
       orders := VUndefined;
       products := VUndefined;
       dashboardStats := VUndefined |} /\
  users cached_state <> VUndefined /\
  orders cached_state <> VUndefined /\
  products cached_state <> VUndefined /\
  dashboardStats cached_state <> VUndefined /\
  store (snd (updateDashboardStats refusing_net cached_world)) = cached_state.
Proof.
  split; [|repeat split; try discriminate].
  eapply (loadInitialData_resolved refusing_net cached_world); reflexivity.
Qed.

(** [loadInitialData] does not touch the session. *)
Lemma loadInitialData_session (net : Request -> FetchOutcome) (w : World) :
  isAdminLoggedIn (store (snd (loadInitialData net w)))
  = isAdminLoggedIn (store w) /\
  adminUser (store (snd (loadInitialData net w))) = adminUser (store w).
Proof.
  unfold loadInitialData, try_catch, bind.
  rewrite promise_all_apiCall.
  destruct (join_results _) as [e|results]; [split; reflexivity|].
  unfold lift.
  destruct (getProp (nth 0 results VUndefined) P_data); [split; reflexivity|].
  destruct (getProp (nth 1 results VUndefined) P_data); [split; reflexivity|].
  destruct (getProp (nth 2 results VUndefined) P_data); [split; reflexivity|].
  destruct (getProp (nth 3 results VUndefined) P_data); split; reflexivity.
Qed.

Lemma getProp_defined (v x : value) (p q : PropName) :
  getProp v p = inr x -> exists y, getProp v q = inr y.
Proof. destruct v; simpl; intros H; try discriminate; eauto. Qed.

(** C10. Once the auth endpoint has answered with a true [success],
    [adminLogin] returns true and the admin is logged in, whatever happens
    to the requests of the [loadInitialData] it awaits. *)
Theorem adminLogin_true_whatever_load (net : Request -> FetchOutcome)
    (email password : string) (w : World) (result success : value) :
  api_result (net (auth_request email password)) = inr result ->
  getProp result P_success = inr success ->
  truthy success = true ->
  fst (adminLogin net email password w) = inr true /\
  isAdminLoggedIn (store (snd (adminLogin net email password w))) = true.
Proof.
  intros Hcall Hsuccess Htruthy.
  destruct (getProp_defined result success P_success P_user Hsuccess)
    as [account Haccount].
  unfold adminLogin, try_catch, bind.
  rewrite apiCall_run, Hcall. unfold lift.
  rewrite Hsuccess, Htruthy, Haccount.
  cbn [set_ bind get put].
  match goal with |- context [loadInitialData net ?w1] =>
    pose proof (loadInitialData_returns net w1) as Hret;
    pose proof (loadInitialData_session net w1) as [Hlogged _];
    destruct (loadInitialData net w1) as [[e|[]] w2]
  end; simpl in Hret; [discriminate|].
  split; [reflexivity|]. simpl in *. exact Hlogged.
Qed.

Lemma adminLogin_true_whatever_load_witness :
  fst (adminLogin login_only_net "admin@shop.kr" "admin123" cached_world)
  = inr true /\
  store (snd (loadInitialData login_only_net cached_world)) = cached_state.
Proof.
  split.
  - apply (adminLogin_true_whatever_load login_only_net "admin@shop.kr"
             "admin123" cached_world
             (VObj (<["success" := VBool true]>
                     (<["user" := user_json "a-1" "Admin"]> ∅)))
             (VBool true)); reflexivity.
  - reflexivity.
Defined.

Lemma invocations_app (t1 t2 : list Event) :
  invocations (t1 ++ t2) = (invocations t1 + invocations t2)%nat.
Proof.
  induction t1 as [|[r|m|[]] rest IH]; simpl; [reflexivity| | |]; now rewrite IH.
Qed.

(** One order through the callback of [map]. *)
Lemma patch_order_spec (orderId : string) (status : OrderStatus)
    (order : value) :
  order <> VNull -> order <> VUndefined ->
  exists order',
    patch_order orderId status order = inr order' /\
    order_patched orderId status order order'.
Proof.
  intros Hnull Hundef. unfold patch_order, order_patched.
  destruct order as [| |b|n|s|elems|fields]; try congruence; simpl.
  - eexists; split; [reflexivity|]. split; [discriminate | reflexivity].
  - eexists; split; [reflexivity|]. split; [discriminate | reflexivity].
  - eexists; split; [reflexivity|]. split; [discriminate | reflexivity].
  - eexists; split; [reflexivity|]. split; [discriminate | reflexivity].
  - destruct (default VUndefined (fields !! "id")) as [| |b|n|s|elems|fs] eqn:Hid;
      simpl; try (eexists; split; [reflexivity|];
                  split; [discriminate | reflexivity]).
    destruct (bool_decide_reflect (s = orderId)) as [->|Hne].
    + eexists; split; [reflexivity|]. split; [|congruence].
      intros _. exists fields, (<["status" := VStr (status_string status)]> fields).
      repeat split.
      * apply lookup_insert_eq.
      * intros key Hkey. now apply lookup_insert_ne.
    + eexists; split; [reflexivity|]. split; [congruence | reflexivity].
Qed.

Lemma map_elems_patch (orderId : string) (status : OrderStatus)
    (os : list value) :
  Forall (fun o => o <> VNull /\ o <> VUndefined) os ->
  exists os',
    map_elems (patch_order orderId status) os = inr os' /\
    Forall2 (order_patched orderId status) os os'.
Proof.
  induction 1 as [|o rest [Hnull Hundef] _ IH]; simpl.
  - exists []. split; [reflexivity | constructor].
  - destruct (patch_order_spec orderId status o Hnull Hundef) as (o' & -> & Ho).
    destruct IH as (rest' & -> & Hrest).
    exists (o' :: rest'). split; [reflexivity | now constructor].
Qed.

(** [updateDashboardStats] writes at most [dashboardStats], starts nothing
    and returns normally. *)
Lemma updateDashboardStats_effect (net : Request -> FetchOutcome) (w : World) :
  exists (stats : value) (t : list Event),
    updateDashboardStats net w
    = (inr tt, {| store := with_stats (store w) stats;
                  trace := trace w ++ t;
                  detached := detached w |}) /\
    invocations t = 0%nat.
Proof.
  destruct w as [[logged admin us os ps ds] t0 d0].
  unfold updateDashboardStats, try_catch, bind.
  rewrite apiCall_run. unfold lift, with_stats; simpl.
  destruct (api_result (net (GET "/api/admin/dashboard"))) as [e|result].
  { exists ds. eexists. unfold console_error, emit; simpl.
    rewrite <- app_assoc. split; reflexivity. }
  destruct (getProp result P_success) as [e|success].
  { exists ds. eexists. unfold console_error, emit; simpl.
    rewrite <- app_assoc. split; reflexivity. }
  destruct (truthy success).
  - destruct (getProp result P_data) as [e|data].
    + exists ds. eexists. unfold console_error, emit; simpl.
      rewrite <- app_assoc. split; reflexivity.
    + exists data. eexists. split; reflexivity.
  - exists ds. eexists. split; reflexivity.
Qed.

Lemma run_detached (net : Request -> FetchOutcome) (l : list Action)
    (w : World) :
  exists (stats : value) (t : list Event),
    fold_left (fun w' a => snd (run_action net a w')) l w
    = {| store := with_stats (store w) stats;
         trace := trace w ++ t;
         detached := detached w |} /\
    invocations t = 0%nat.
Proof.
  revert w. induction l as [|[] rest IH]; intros w; simpl.
  - exists (dashboardStats (store w)), []. rewrite app_nil_r.
    destruct w as [[logged admin us os ps ds] t0 d0]. split; reflexivity.
  - destruct (updateDashboardStats_effect net w) as (stats & t & Hrun & Ht).
    rewrite Hrun. cbn [snd].
    destruct (IH {| store := with_stats (store w) stats;
                    trace := trace w ++ t; detached := detached w |})
      as (stats' & t' & -> & Ht').
    exists stats', (t ++ t')%list. simpl. rewrite <- app_assoc.
    split; [reflexivity|]. rewrite invocations_app. lia.
Qed.

(** C6. When the remote call of [updateOrderStatus] reports success and
    the cached orders are an array of objects, the orders with the given id
    get the new [status] and keep every other field, the other orders and
    the other slices are kept, and [updateDashboardStats] is started exactly
    once; running it changes neither the orders nor that count. *)
Theorem updateOrderStatus_frame (net : Request -> FetchOutcome)
    (orderId : string) (status : OrderStatus) (w : World)
    (os : list value) (result success : value) :
  api_result (net (order_request orderId status)) = inr result ->
  getProp result P_success = inr success ->
  truthy success = true ->
  orders (store w) = VArr os ->
  Forall (fun o => o <> VNull /\ o <> VUndefined) os ->
  exists os' : list value,
    Forall2 (order_patched orderId status) os os' /\
    updateOrderStatus net orderId status w
    = (inr tt,
       {| store := with_orders (store w) (VArr os');
          trace := trace w ++ [ Fetch (order_request orderId status);
                                Invoke UpdateDashboardStats ];
          detached := detached w ++ [UpdateDashboardStats] |}) /\
    (exists stats : value,
       store (settle net (snd (updateOrderStatus net orderId status w)))
       = with_stats (with_orders (store w) (VArr os')) stats) /\
    invocations
      (trace (settle net (snd (updateOrderStatus net orderId status w))))
    = S (invocations (trace w)).
Proof.
  intros Hcall Hsuccess Htruthy Horders Hshape.
  destruct (map_elems_patch orderId status os Hshape) as (os' & Hmap & Hpatched).
  exists os'. split; [exact Hpatched|].
  assert (Hrun : updateOrderStatus net orderId status w
    = (inr tt,
       {| store := with_orders (store w) (VArr os');
          trace := trace w ++ [ Fetch (order_request orderId status);
                                Invoke UpdateDashboardStats ];
          detached := detached w ++ [UpdateDashboardStats] |})).
  { unfold updateOrderStatus, try_catch, bind.
    rewrite apiCall_run, Hcall. unfold lift.
    rewrite Hsuccess, Htruthy. unfold set_fn, bind, get, lift; simpl.
    rewrite Horders. simpl. rewrite Hmap. simpl.
    rewrite <- app_assoc. reflexivity. }
  split; [exact Hrun|]. rewrite Hrun. unfold settle. simpl.
  match goal with |- context [fold_left _ ?l ?w0] =>
    destruct (run_detached net l w0) as (stats & t & -> & Ht) end.
  simpl. split.
  - now exists stats.
  - rewrite !invocations_app, Ht. simpl. lia.
Qed.

Lemma updateOrderStatus_frame_witness :
  exists os' : list value,
    Forall2 (order_patched "o-2" delivered)
      [ order_json "o-1" "pending" 0x40d86a0000000000;
        order_json "o-2" "paid" 0x40c7700000000000 ] os' /\
    orders (store (snd (updateOrderStatus accepting_net "o-2" delivered
                          cached_world))) = VArr os' /\
    invocations (trace (settle accepting_net
                          (snd (updateOrderStatus accepting_net "o-2" delivered
                                  cached_world)))) = 1%nat.
Proof.
  destruct (updateOrderStatus_frame accepting_net "o-2" delivered cached_world
              [ order_json "o-1" "pending" 0x40d86a0000000000;
                order_json "o-2" "paid" 0x40c7700000000000 ]
              (VObj (<["success" := VBool true]> (<["data" := VObj ∅]> ∅)))
              (VBool true))
    as (os' & Hpatched & Hrun & _ & Hcount).
  - reflexivity.
  - reflexivity.
  - reflexivity.
  - reflexivity.
  - repeat constructor; discriminate.
  - exists os'. split; [exact Hpatched|]. split; [|exact Hcount].
    rewrite Hrun. reflexivity.
Defined.

(** On the sample store: the second order becomes "delivered", the first
    one is the same value as before. *)
Example updateOrderStatus_delivered :
  orders (store (snd (updateOrderStatus accepting_net "o-2" delivered
                        cached_world)))
  = VArr [ order_json "o-1" "pending" 0x40d86a0000000000;
           order_json "o-2" "delivered" 0x40c7700000000000 ].
Proof. reflexivity. Qed.

(** Outside the declared shape, for instance with the [undefined] that a
    refused load leaves in [orders], [map] throws inside [set]: the failure
    is logged, the store is kept and nothing is started. *)
Example updateOrderStatus_without_array :
  updateOrderStatus accepting_net "o-2" delivered
    {| store := with_orders cached_state VUndefined;
       trace := []; detached := [] |}
  = (inr tt,
     {| store := with_orders cached_state VUndefined;
        trace := [ Fetch (order_request "o-2" delivered);
                   ConsoleError "Failed to update order status:" ];
        detached := [] |}).
Proof. reflexivity. Qed.

End AdminStoreFacts.

(** ** Identity store: profile edits and verification calls *)

Section AuthStoreProfile.
Import AuthStore.

Lemma default_union {A} (x : A) (first second : option A) :
  default (default x first) second = default x (second ∪ first).
Proof. destruct first, second; reflexivity. Qed.

(** X1. Two profile edits in a row are one edit with the two arguments
    merged, the keys of the second winning. An edit never changes
    [isLoggedIn] and never creates or removes the user: without a user it
    changes nothing, whatever fields it is given. *)
Theorem updateProfile_compose (first second : PartialUser) (s : AuthState) :
  updateProfile second (updateProfile first s)
  = updateProfile (merge_partial first second) s /\
  isLoggedIn (updateProfile first s) = isLoggedIn s /\
  (user (updateProfile first s) = None <-> user s = None) /\
  (user s = None -> updateProfile first s = s).
Proof.
  unfold updateProfile. destruct (user s) as [u|] eqn:Huser; simpl.
  - rewrite !default_union. repeat split; discriminate.
  - rewrite Huser. repeat split; assumption.
Qed.

(** X2. A successful [login] builds the user from the email alone: profile
    edits made before it are discarded, and the stored user has no phone
    and no address. *)
Theorem login_discards_profile (iso email password : string)
    (userData : PartialUser) (s : AuthState) :
  email <> EmptyString -> (6 <= String.length password)%nat ->
  user (snd (login iso email password (updateProfile userData s)))
  = user (snd (login iso email password s)) /\
  exists u : User,
    user (snd (login iso email password s)) = Some u /\
    phone u = None /\ address u = None /\ joinDate u = iso.
Proof.
  intros Hemail Hlen. unfold login.
  rewrite (login_guard_true email password Hemail Hlen). simpl.
  split; [reflexivity|]. eexists. repeat split.
Qed.

Lemma login_discards_profile_witness :
  user (snd (login "2024-05-01T09:00:00.000Z" "kim@shop.kr" "secret1"
               (updateProfile
                  (mkPartialUser None None (Some "X") (Some (Some "010"))
                     None None None None)
                  (snd (signup 1700000001000 "2023-11-14T22:13:21.000Z"
                          (mkSignup "kim@shop.kr" "secret1" "Kim" None)
                          initialState)))))
  = user (snd (login "2024-05-01T09:00:00.000Z" "kim@shop.kr" "secret1"
                 (snd (signup 1700000001000 "2023-11-14T22:13:21.000Z"
                         (mkSignup "kim@shop.kr" "secret1" "Kim" None)
                         initialState)))).
Proof.
  apply (login_discards_profile "2024-05-01T09:00:00.000Z" "kim@shop.kr"
           "secret1").
  - discriminate.
  - simpl. lia.
Defined.

Lemma first_piece_empty (sep : ascii) (s : string) :
  JS.first_piece (JS.split sep s) = EmptyString <->
  s = EmptyString \/ exists rest, s = String sep rest.
Proof.
  destruct s as [|c rest]; simpl.
  - split; [now left | reflexivity].
  - destruct (Ascii.eqb_spec c sep) as [->|Hne]; simpl.
    + split; [right; now exists rest | reflexivity].
    + pose proof (split_not_nil sep rest) as Hnil.
      destruct (JS.split sep rest) as [|piece pieces]; [congruence|]. simpl.
      split; [discriminate|].
      intros [Hempty|[tail Htail]]; [discriminate|]. congruence.
Qed.

(** X3. [login] accepts an email with nothing before the '@': the stored
    name is empty exactly when the accepted email starts with '@'. *)
Theorem login_empty_name (iso email password : string) (s : AuthState) :
  email <> EmptyString -> (6 <= String.length password)%nat ->
  exists u : User,
    user (snd (login iso email password s)) = Some u /\
    (name u = EmptyString <-> exists rest, email = String "@" rest).
Proof.
  intros Hemail Hlen. unfold login.
  rewrite (login_guard_true email password Hemail Hlen). simpl.
  eexists. split; [reflexivity|]. simpl.
  rewrite first_piece_empty. split.
  - intros [Hempty|Hat]; [contradiction | exact Hat].
  - intros Hat. now right.
Qed.

Lemma login_empty_name_witness :
  exists u : User,
    user (snd (login "2024-05-01T09:00:00.000Z" "@shop.kr" "secret1"
                 initialState)) = Some u /\
    name u = EmptyString.
Proof.
  destruct (login_empty_name "2024-05-01T09:00:00.000Z" "@shop.kr" "secret1"
              initialState) as (u & Hu & Hname).
  - discriminate.
  - simpl. lia.
  - exists u. split; [exact Hu|]. apply Hname. now exists "shop.kr".
Defined.

Lemma run_op_frame (op : VerificationOp) (s : AuthState) :
  user (run_op op s) = user s /\ isLoggedIn (run_op op s) = isLoggedIn s.
Proof. destruct op; split; reflexivity. Qed.

Lemma run_ops_frame (ops : list VerificationOp) (s : AuthState) :
  user (run_ops ops s) = user s /\ isLoggedIn (run_ops ops s) = isLoggedIn s.
Proof.
  unfold run_ops. revert s. induction ops as [|op rest IH]; intros s; simpl.
  - split; reflexivity.
  - destruct (IH (run_op op s)) as [Hu Hl].
    destruct (run_op_frame op s) as [Hu' Hl']. split; congruence.
Qed.

(** X4. No sequence of verification calls changes [user] or [isLoggedIn],
    and none reaches the storage: the snapshot written afterwards is the
    one that would have been written before. *)
Theorem verification_calls_not_persisted (ops : list VerificationOp)
    (s : AuthState) (st : Storage) :
  user (run_ops ops s) = user s /\
  isLoggedIn (run_ops ops s) = isLoggedIn s /\
  persist (run_ops ops s) st = persist s st.
Proof.
  destruct (run_ops_frame ops s) as [Hu Hl]. repeat split; try assumption.
  unfold persist, partialize. now rewrite Hu, Hl.
Qed.

(** X5. Two verification calls that write different fields commute. *)
Theorem verification_calls_commute (op1 op2 : VerificationOp)
    (f1 f2 : VerificationField) (s : AuthState) :
  written_field op1 = Some f1 -> written_field op2 = Some f2 -> f1 <> f2 ->
  run_op op1 (run_op op2 s) = run_op op2 (run_op op1 s).
Proof.
  intros H1 H2 Hne.
  destruct op1, op2; simpl in H1, H2; try discriminate;
    try reflexivity; congruence.
Qed.

Lemma verification_calls_commute_witness :
  setEmailVerified true (setVerificationMethod ByEmail initialState)
  = setVerificationMethod ByEmail (setEmailVerified true initialState).
Proof.
  apply (verification_calls_commute (SetEmailVerified true)
           (SetVerificationMethod ByEmail) F_emailVerified F_method
           initialState); [reflexivity | reflexivity | discriminate].
Defined.

(** X6. On one field the last call wins, and [resetVerification] after any
    sequence of verification calls gives the initial sub-record. *)
Theorem verification_last_call_wins (ops : list VerificationOp)
    (op1 op2 : VerificationOp) (s : AuthState) :
  (written_field op1 = written_field op2 ->
   run_op op2 (run_op op1 s) = run_op op2 s) /\
  resetVerification (run_ops ops s)
  = {| user := user s; isLoggedIn := isLoggedIn s;
       verification := initialVerification |}.
Proof.
  split.
  - destruct op1, op2; simpl; intros Hsame; try discriminate; reflexivity.
  - destruct (run_ops_frame ops s) as [Hu Hl].
    unfold resetVerification, set_verification. now rewrite Hu, Hl.
Qed.

End AuthStoreProfile.

(** ** Admin store: the remote actions as a family *)

Section AdminStoreMutations.
Import JS AdminStore.

Lemma requests_app (t1 t2 : list Event) :
  requests (t1 ++ t2) = (requests t1 ++ requests t2)%list.
Proof.
  induction t1 as [|[r|m|a] rest IH]; simpl; [reflexivity| | |]; now rewrite IH.
Qed.

Ltac run_guarded :=
  unfold try_catch, bind; rewrite apiCall_run;
  unfold lift, set_fn, set_, bind, get, put, lift, spawn, console_error,
    emit, ret; cbn [fst snd store trace detached].

(** Splits on whatever the run still branches on. *)
Ltac crunch :=
  repeat (cbn [fst snd store trace detached];
          match goal with
          | |- context [match ?x with _ => _ end] =>
              lazymatch x with
              | context [match _ with _ => _ end] => fail
              | _ => destruct x
              end
          end).

Ltac outcome_leaf :=
  cbn [fst snd store trace detached];
  rewrite ?requests_app, ?invocations_app; cbn [requests invocations];
  rewrite ?app_nil_r, ?Nat.add_0_r;
  repeat split; try reflexivity; try (intros; discriminate);
  try (intros [] Hsl; first [reflexivity | now contradiction Hsl]);
  try lia;
  try (exfalso;
       match goal with
       | H : forall a b, _ <> _ |- _ => exact (H _ _ eq_refl)
       end).

(** What every run of a remote action looks like. *)
Lemma mutation_outcome (net : Request -> FetchOutcome)
    (number_to_string : N -> string) (m : Mutation) (w : World) :
  exists w' : World,
    run_mutation net number_to_string m w = (inr tt, w') /\
    requests (trace w')
    = (requests (trace w) ++ [mutation_request number_to_string m])%list /\
    isAdminLoggedIn (store w') = isAdminLoggedIn (store w) /\
    adminUser (store w') = adminUser (store w) /\
    (forall sl, sl <> mutation_slice m ->
                slice sl (store w') = slice sl (store w)) /\
    (invocations (trace w') <= S (invocations (trace w)))%nat /\
    ((forall orderId status, m <> DoUpdateOrderStatus orderId status) ->
     detached w' = detached w /\
     invocations (trace w') = invocations (trace w)) /\
    (declined net (mutation_request number_to_string m) ->
     store w' = store w /\ detached w' = detached w /\
     invocations (trace w') = invocations (trace w)).
Proof.
  unfold declined.
  destruct m as [|userId isActive|productData|productId updates|productId
                 |orderId status];
    cbn [run_mutation mutation_request mutation_slice];
    unfold updateDashboardStats, updateUserStatus, addProduct, updateProduct,
      deleteProduct, updateOrderStatus;
    run_guarded; crunch; (eexists; split; [reflexivity|]); outcome_leaf.
Qed.


(** X8. A remote action writes no slice but its own and leaves the admin
    session alone; only [updateOrderStatus] starts another action, and at
    most one. *)
Theorem remote_action_frame (net : Request -> FetchOutcome)
    (number_to_string : N -> string) (m : Mutation) (w : World)
    (sl : Slice) :
  sl <> mutation_slice m ->
  slice sl (store (snd (run_mutation net number_to_string m w)))
  = slice sl (store w) /\
  isAdminLoggedIn (store (snd (run_mutation net number_to_string m w)))
  = isAdminLoggedIn (store w) /\
  adminUser (store (snd (run_mutation net number_to_string m w)))
  = adminUser (store w) /\
  (invocations (trace (snd (run_mutation net number_to_string m w)))
   <= S (invocations (trace w)))%nat /\
  ((forall orderId status, m <> DoUpdateOrderStatus orderId status) ->
   detached (snd (run_mutation net number_to_string m w)) = detached w).
Proof.
  intros Hsl.
  destruct (mutation_outcome net number_to_string m w)
    as (w' & -> & _ & Hlogged & Hadmin & Hslice & Hcount & Hother & _).
  cbn [snd]. repeat split; auto. intros Hnot. now apply Hother.
Qed.

Lemma remote_action_frame_witness :
  users (store (snd (run_mutation echo_net sample_number_to_string
                       (DoDeleteProduct one) stocked_world)))
  = users stocked_state.
Proof.
  apply (remote_action_frame echo_net sample_number_to_string
           (DoDeleteProduct one) stocked_world S_users).
  discriminate.
Defined.

(** X9. When the remote call of an action throws or does not report
    success, the store is left as it was and no other action is started. *)
Theorem remote_action_declined (net : Request -> FetchOutcome)
    (number_to_string : N -> string) (m : Mutation) (w : World) :
  declined net (mutation_request number_to_string m) ->
  store (snd (run_mutation net number_to_string m w)) = store w /\
  detached (snd (run_mutation net number_to_string m w)) = detached w /\
  invocations (trace (snd (run_mutation net number_to_string m w)))
  = invocations (trace w).
Proof.
  intros Hdeclined.
  destruct (mutation_outcome net number_to_string m w)
    as (w' & -> & _ & _ & _ & _ & _ & _ & Hkept).
  cbn [snd]. now apply Hkept.
Qed.

Lemma remote_action_declined_witness :
  store (snd (run_mutation refusing_net sample_number_to_string
                (DoUpdateOrderStatus "o-2" delivered) cached_world))
  = cached_state /\
  store (snd (run_mutation offline_net sample_number_to_string
                (DoAddProduct (product_json three "Black tea" one))
                stocked_world))
  = stocked_state.
Proof.
  split.
  - apply (remote_action_declined refusing_net sample_number_to_string
             (DoUpdateOrderStatus "o-2" delivered) cached_world).
    reflexivity.
  - apply (remote_action_declined offline_net sample_number_to_string
             (DoAddProduct (product_json three "Black tea" one))
             stocked_world).
    exact I.
Defined.

End AdminStoreMutations.

(** ** Admin store: what each acknowledged action writes *)

Section AdminStoreWrites.
Import JS AdminStore.

Ltac run_guarded :=
  unfold try_catch, bind; rewrite apiCall_run;
  unfold lift, set_fn, set_, bind, get, put, lift, spawn, console_error,
    emit, ret; cbn [fst snd store trace detached].

Lemma map_elems_Forall2 (f : value -> exn + value)
    (R : value -> value -> Prop) (xs : list value) :
  Forall (fun x => exists y, f x = inr y /\ R x y) xs ->
  exists ys, map_elems f xs = inr ys /\ Forall2 R xs ys.
Proof.
  induction 1 as [|x rest (y & Hy & HR) _ (ys & Hys & Hall)]; simpl.
  - exists []. split; [reflexivity | constructor].
  - rewrite Hy, Hys. exists (y :: ys). split; [reflexivity | now constructor].
Qed.

Lemma getProp_readable (x : value) (p : PropName) :
  x <> VNull -> x <> VUndefined -> exists v, getProp x p = inr v.
Proof. destruct x; simpl; intros; try congruence; eauto. Qed.

(** One user through the callback of [map]. *)
Lemma patch_user_spec (userId : string) (isActive : bool) (user : value) :
  user <> VNull /\ user <> VUndefined ->
  exists user',
    patch_user userId isActive user = inr user' /\
    user_patched userId isActive user user'.
Proof.
  intros [Hnull Hundef]. unfold patch_user, user_patched, has_string_id.
  destruct (getProp_readable user P_id Hnull Hundef) as [i Hi]. rewrite Hi.
  destruct (strict_eq_string i userId) eqn:Heq.
  - eexists. split; [reflexivity|]. split; [|discriminate]. intros _.
    destruct user as [| |b|n|s|elems|fields]; simpl in Hi;
      try congruence;
      try (injection Hi as <-; simpl in Heq; discriminate).
    exists fields, (<["isActive" := VBool isActive]> fields).
    repeat split.
    + apply lookup_insert_eq.
    + intros key Hkey. now apply lookup_insert_ne.
  - eexists. split; [reflexivity|]. split; [discriminate | reflexivity].
Qed.

(** X10. When the remote call of [updateUserStatus] reports success and
    the cached users are an array of objects, the users with the given id
    get the new [isActive] and keep every other field, the other users and
    the other slices are kept, and nothing else is started: unlike a change
    of order status, this one does not refresh the statistics. *)
Theorem updateUserStatus_frame (net : Request -> FetchOutcome)
    (userId : string) (isActive : bool) (w : World)
    (us : list value) (result success : value) :
  api_result (net (user_request userId isActive)) = inr result ->
  getProp result P_success = inr success ->
  truthy success = true ->
  users (store w) = VArr us ->
  all_readable us ->
  exists us' : list value,
    Forall2 (user_patched userId isActive) us us' /\
    updateUserStatus net userId isActive w
    = (inr tt,
       {| store := with_users (store w) (VArr us');
          trace := trace w ++ [Fetch (user_request userId isActive)];
          detached := detached w |}).
Proof.
  intros Hcall Hsuccess Htruthy Husers Hshape.
  destruct (map_elems_Forall2 (patch_user userId isActive)
              (user_patched userId isActive) us) as (us' & Hmap & Hpatched).
  { eapply Forall_impl; [exact Hshape|]. intros x Hx.
    now apply patch_user_spec. }
  exists us'. split; [exact Hpatched|].
  unfold updateUserStatus. run_guarded.
  rewrite Hcall, Hsuccess, Htruthy. cbn [store].
  rewrite Husers. simpl. rewrite Hmap. reflexivity.
Qed.

Lemma updateUserStatus_frame_witness :
  exists us' : list value,
    Forall2 (user_patched "u-7" false) [user_json "u-7" "Kim"] us' /\
    users (store (snd (updateUserStatus accepting_net "u-7" false
                         cached_world))) = VArr us'.
Proof.
  destruct (updateUserStatus_frame accepting_net "u-7" false cached_world
              [user_json "u-7" "Kim"]
              (VObj (<["success" := VBool true]> (<["data" := VObj ∅]> ∅)))
              (VBool true))
    as (us' & Hpatched & Hrun).
  - reflexivity.
  - reflexivity.
  - reflexivity.
  - reflexivity.
  - repeat constructor; discriminate.
  - exists us'. split; [exact Hpatched|]. rewrite Hrun. reflexivity.
Defined.

(** X11. When the remote call of [addProduct] reports success and the
    cached products are an array, the product the server sent back is
    appended after the products already there, which keep their order, and
    [getProducts] returns the longer array. *)
Theorem addProduct_appends (net : Request -> FetchOutcome)
    (productData : value) (w : World) (ps : list value)
    (result success : value) :
  api_result (net (add_request productData)) = inr result ->
  getProp result P_success = inr success ->
  truthy success = true ->
  products (store w) = VArr ps ->
  exists data : value,
    getProp result P_data = inr data /\
    addProduct net productData w
    = (inr tt,
       {| store := with_products (store w) (VArr (ps ++ [data]));
          trace := trace w ++ [Fetch (add_request productData)];
          detached := detached w |}) /\
    fst (getProducts (snd (addProduct net productData w)))
    = inr (VArr (ps ++ [data])).
Proof.
  intros Hcall Hsuccess Htruthy Hproducts.
  destruct (getProp_defined result success P_success P_data Hsuccess)
    as [data Hdata].
  exists data. split; [exact Hdata|].
  assert (Hrun : addProduct net productData w
    = (inr tt,
       {| store := with_products (store w) (VArr (ps ++ [data]));
          trace := trace w ++ [Fetch (add_request productData)];
          detached := detached w |})).
  { unfold addProduct. run_guarded.
    rewrite Hcall, Hsuccess, Htruthy. cbn [store].
    rewrite Hproducts. simpl. rewrite Hdata. reflexivity. }
  split; [exact Hrun|]. rewrite Hrun. reflexivity.
Qed.

Lemma addProduct_appends_witness :
  fst (getProducts (snd (addProduct echo_net (VObj ∅) stocked_world)))
  = inr (VArr [ product_json one "Green tea" three;
                product_json two "Oolong" two;
                product_json three "Black tea" one ]).
Proof.
  destruct (addProduct_appends echo_net (VObj ∅) stocked_world
              [product_json one "Green tea" three;
               product_json two "Oolong" two]
              (VObj (<["success" := VBool true]>
                      (<["data" := product_json three "Black tea" one]> ∅)))
              (VBool true))
    as (data & Hdata & _ & Hget); [reflexivity .. |].
  rewrite Hget. simpl in Hdata. injection Hdata as <-. reflexivity.
Defined.

(** One product through the callback of [map]. *)
Lemma merge_product_spec (productId : N) (updates : gmap string value)
    (product : value) :
  product <> VNull /\ product <> VUndefined ->
  exists product',
    merge_product productId updates product = inr product' /\
    product_merged productId updates product product'.
Proof.
  intros [Hnull Hundef]. unfold merge_product, product_merged, has_number_id.
  destruct (getProp_readable product P_id Hnull Hundef) as [i Hi]. rewrite Hi.
  destruct (strict_eq_number i productId) eqn:Heq.
  - eexists. split; [reflexivity|]. split; [|discriminate]. intros _.
    destruct product as [| |b|n|s|elems|fields]; simpl in Hi;
      try congruence;
      try (injection Hi as <-; simpl in Heq; discriminate).
    exists fields, (updates ∪ fields). repeat split.
    intros key. rewrite lookup_union.
    destruct (updates !! key), (fields !! key); reflexivity.
  - eexists. split; [reflexivity|]. split; [discriminate | reflexivity].
Qed.

(** X12. When the remote call of [updateProduct] reports success and the
    cached products are an array of objects, on the products with the given
    id every key of the updates takes the value given and every other key
    is kept; the other products, their number and their order are kept. *)
Theorem updateProduct_merges (net : Request -> FetchOutcome)
    (productId : N) (updates : gmap string value) (w : World)
    (ps : list value) (result success : value) :
  api_result (net (update_request productId updates)) = inr result ->
  getProp result P_success = inr success ->
  truthy success = true ->
  products (store w) = VArr ps ->
  all_readable ps ->
  exists ps' : list value,
    Forall2 (product_merged productId updates) ps ps' /\
    length ps' = length ps /\
    updateProduct net productId updates w
    = (inr tt,
       {| store := with_products (store w) (VArr ps');
          trace := trace w ++ [Fetch (update_request productId updates)];
          detached := detached w |}).
Proof.
  intros Hcall Hsuccess Htruthy Hproducts Hshape.
  destruct (map_elems_Forall2 (merge_product productId updates)
              (product_merged productId updates) ps)
    as (ps' & Hmap & Hmerged).
  { eapply Forall_impl; [exact Hshape|]. intros x Hx.
    now apply merge_product_spec. }
  exists ps'. split; [exact Hmerged|].
  split; [symmetry; exact (Forall2_length _ _ _ Hmerged)|].
  unfold updateProduct. run_guarded.
  rewrite Hcall, Hsuccess, Htruthy. cbn [store].
  rewrite Hproducts. simpl. rewrite Hmap. reflexivity.
Qed.

Lemma updateProduct_merges_witness :
  exists ps' : list value,
    Forall2 (product_merged two {["stock" := VNum one]})
      [product_json one "Green tea" three; product_json two "Oolong" two]
      ps' /\
    products (store (snd (updateProduct echo_net two {["stock" := VNum one]}
                            stocked_world))) = VArr ps'.
Proof.
  destruct (updateProduct_merges echo_net two {["stock" := VNum one]}
              stocked_world
              [product_json one "Green tea" three;
               product_json two "Oolong" two]
              (VObj (<["success" := VBool true]>
                      (<["data" := product_json three "Black tea" one]> ∅)))
              (VBool true))
    as (ps' & Hmerged & _ & Hrun).
  - reflexivity.
  - reflexivity.
  - reflexivity.
  - reflexivity.
  - repeat constructor; discriminate.
  - exists ps'. split; [exact Hmerged|]. rewrite Hrun. reflexivity.
Defined.

(** On readable elements the callback of [filter] does not throw. *)
Lemma filter_elems_spec (productId : N) (ps : list value) :
  all_readable ps ->
  filter_elems (other_product productId) ps
  = inr (List.filter (fun p => negb (has_number_id productId p)) ps).
Proof.
  unfold all_readable.
  induction 1 as [|p rest [Hnull Hundef] _ IH];
    cbn [filter_elems List.filter]; [reflexivity|].
  rewrite IH. unfold other_product, has_number_id.
  destruct (getProp_readable p P_id Hnull Hundef) as [i Hi]. rewrite Hi.
  now destruct (strict_eq_number i productId).
Qed.

Lemma all_readable_filter (keep : value -> bool) (ps : list value) :
  all_readable ps -> all_readable (List.filter keep ps).
Proof.
  unfold all_readable. induction 1 as [|p rest Hp _ IH]; simpl.
  - constructor.
  - destruct (keep p); [now constructor | exact IH].
Qed.

Lemma filter_filter_same {A} (keep : A -> bool) (l : list A) :
  List.filter keep (List.filter keep l) = List.filter keep l.
Proof.
  induction l as [|x rest IH]; simpl; [reflexivity|].
  destruct (keep x) eqn:Hx; simpl; [rewrite Hx, IH|]; auto.
Qed.

Lemma deleteProduct_run (net : Request -> FetchOutcome)
    (number_to_string : N -> string) (productId : N) (w : World)
    (ps : list value) (result success : value) :
  api_result (net (delete_request number_to_string productId)) = inr result ->
  getProp result P_success = inr success ->
  truthy success = true ->
  products (store w) = VArr ps ->
  all_readable ps ->
  deleteProduct net number_to_string productId w
  = (inr tt,
     {| store :=
          with_products (store w)
            (VArr (List.filter
                     (fun p => negb (has_number_id productId p)) ps));
        trace := trace w ++ [Fetch (delete_request number_to_string productId)];
        detached := detached w |}).
Proof.
  intros Hcall Hsuccess Htruthy Hproducts Hshape.
  unfold deleteProduct. run_guarded.
  rewrite Hcall, Hsuccess, Htruthy. cbn [store].
  rewrite Hproducts. simpl. rewrite (filter_elems_spec productId ps Hshape).
  reflexivity.
Qed.

(** X13. When the remote call of [deleteProduct] reports success and the
    cached products are an array of objects, the products left are the
    ones whose id is not the given number, in their order: none with that
    id is left, and none of the others is lost. *)
Theorem deleteProduct_removes (net : Request -> FetchOutcome)
    (number_to_string : N -> string) (productId : N) (w : World)
    (ps : list value) (result success : value) :
  api_result (net (delete_request number_to_string productId)) = inr result ->
  getProp result P_success = inr success ->
  truthy success = true ->
  products (store w) = VArr ps ->
  all_readable ps ->
  exists ps' : list value,
    deleteProduct net number_to_string productId w
    = (inr tt,
       {| store := with_products (store w) (VArr ps');
          trace :=
            trace w ++ [Fetch (delete_request number_to_string productId)];
          detached := detached w |}) /\
    ps' = List.filter (fun p => negb (has_number_id productId p)) ps /\
    (forall p, In p ps' <-> In p ps /\ has_number_id productId p = false) /\
    (length ps' <= length ps)%nat.
Proof.
  intros Hcall Hsuccess Htruthy Hproducts Hshape.
  exists (List.filter (fun p => negb (has_number_id productId p)) ps).
  split; [now apply (deleteProduct_run net number_to_string productId w ps
                       result success)|].
  split; [reflexivity|]. split.
  - intros p. rewrite filter_In, negb_true_iff. reflexivity.
  - apply List.filter_length_le.
Qed.

Lemma deleteProduct_removes_witness :
  products (store (snd (deleteProduct echo_net sample_number_to_string one
                          stocked_world)))
  = VArr [product_json two "Oolong" two].
Proof.
  destruct (deleteProduct_removes echo_net sample_number_to_string one
              stocked_world
              [product_json one "Green tea" three;
               product_json two "Oolong" two]
              (VObj (<["success" := VBool true]>
                      (<["data" := product_json three "Black tea" one]> ∅)))
              (VBool true))
    as (ps' & Hrun & Hps' & _).
  - reflexivity.
  - reflexivity.
  - reflexivity.
  - reflexivity.
  - repeat constructor; discriminate.
  - rewrite Hrun, Hps'. reflexivity.
Defined.

(** X14. Deleting the same product a second time, both calls acknowledged,
    leaves the store as the first deletion left it. *)
Theorem deleteProduct_twice (net1 net2 : Request -> FetchOutcome)
    (number_to_string : N -> string) (productId : N) (w : World)
    (ps : list value) (result1 success1 result2 success2 : value) :
  api_result (net1 (delete_request number_to_string productId)) = inr result1 ->
  getProp result1 P_success = inr success1 ->
  truthy success1 = true ->
  api_result (net2 (delete_request number_to_string productId)) = inr result2 ->
  getProp result2 P_success = inr success2 ->
  truthy success2 = true ->
  products (store w) = VArr ps ->
  all_readable ps ->
  store (snd (deleteProduct net2 number_to_string productId
                (snd (deleteProduct net1 number_to_string productId w))))
  = store (snd (deleteProduct net1 number_to_string productId w)).
Proof.
  intros Hcall1 Hs1 Ht1 Hcall2 Hs2 Ht2 Hproducts Hshape.
  rewrite (deleteProduct_run net1 number_to_string productId w ps
             result1 success1) by assumption.
  cbn [snd].
  rewrite (deleteProduct_run net2 number_to_string productId _
             (List.filter (fun p => negb (has_number_id productId p)) ps)
             result2 success2);
    try assumption; try reflexivity.
  - cbn [snd store]. rewrite filter_filter_same. reflexivity.
  - now apply all_readable_filter.
Qed.

Lemma deleteProduct_twice_witness :
  store (snd (deleteProduct echo_net sample_number_to_string one
                (snd (deleteProduct echo_net sample_number_to_string one
                        stocked_world))))
  = store (snd (deleteProduct echo_net sample_number_to_string one
                  stocked_world)).
Proof.
  apply (deleteProduct_twice echo_net echo_net sample_number_to_string one
           stocked_world
           [product_json one "Green tea" three; product_json two "Oolong" two]
           (VObj (<["success" := VBool true]>
                   (<["data" := product_json three "Black tea" one]> ∅)))
           (VBool true)
           (VObj (<["success" := VBool true]>
                   (<["data" := product_json three "Black tea" one]> ∅)))
           (VBool true)); try reflexivity.
  repeat constructor; discriminate.
Defined.

Lemma nan_matches_nothing (productId : N) (p : value) :
  number_is_nan productId = true -> has_number_id productId p = false.
Proof.
  intros Hnan. unfold has_number_id.
  destruct (getProp p P_id) as [e|[| |b|n|s|elems|fields]]; try reflexivity.
  simpl. unfold number_strict_eq. rewrite Hnan.
  now rewrite andb_false_r.
Qed.

Lemma filter_all {A} (keep : A -> bool) (l : list A) :
  (forall x, keep x = true) -> List.filter keep l = l.
Proof.
  intros Hall. induction l as [|x rest IH]; simpl; [reflexivity|].
  now rewrite Hall, IH.
Qed.

(** X15. A NaN id matches no product: an acknowledged [deleteProduct] or
    [updateProduct] called with NaN leaves the cached products as they
    were. *)
Theorem nan_id_matches_no_product (net : Request -> FetchOutcome)
    (number_to_string : N -> string) (m : Mutation) (productId : N)
    (w : World) (ps : list value) (result success : value) :
  number_is_nan productId = true ->
  m = DoDeleteProduct productId \/
  (exists updates, m = DoUpdateProduct productId updates) ->
  api_result (net (mutation_request number_to_string m)) = inr result ->
  getProp result P_success = inr success ->
  truthy success = true ->
  products (store w) = VArr ps ->
  all_readable ps ->
  products (store (snd (run_mutation net number_to_string m w))) = VArr ps.
Proof.
  intros Hnan Hm Hcall Hsuccess Htruthy Hproducts Hshape.
  destruct Hm as [->|[updates ->]]; cbn [run_mutation mutation_request] in *.
  - rewrite (deleteProduct_run net number_to_string productId w ps
               result success) by assumption.
    cbn [snd store with_products products]. f_equal.
    apply filter_all. intros p. now rewrite nan_matches_nothing.
  - destruct (map_elems_Forall2 (merge_product productId updates) eq ps)
      as (ps' & Hmap & Hsame).
    { eapply Forall_impl; [exact Hshape|]. intros x Hx.
      destruct (merge_product_spec productId updates x Hx)
        as (x' & Hx' & _ & Hkeep).
      exists x'. split; [exact Hx'|]. symmetry. apply Hkeep.
      now apply nan_matches_nothing. }
    unfold updateProduct. run_guarded.
    rewrite Hcall, Hsuccess, Htruthy. cbn [store].
    rewrite Hproducts. simpl. rewrite Hmap. simpl. f_equal.
    clear -Hsame. induction Hsame; congruence.
Qed.

Lemma nan_id_matches_no_product_witness :
  products (store (snd (deleteProduct echo_net sample_number_to_string
                          0x7ff8000000000000 stocked_world)))
  = products stocked_state.
Proof.
  apply (nan_id_matches_no_product echo_net sample_number_to_string
           (DoDeleteProduct 0x7ff8000000000000) 0x7ff8000000000000
           stocked_world
           [product_json one "Green tea" three; product_json two "Oolong" two]
           (VObj (<["success" := VBool true]>
                   (<["data" := product_json three "Black tea" one]> ∅)))
           (VBool true)); try reflexivity.
  - now left.
  - repeat constructor; discriminate.
Defined.

Lemma updateOrderStatus_run (net : Request -> FetchOutcome)
    (orderId : string) (status : OrderStatus) (w : World)
    (os os' : list value) (result success : value) :
  api_result (net (order_request orderId status)) = inr result ->
  getProp result P_success = inr success ->
  truthy success = true ->
  orders (store w) = VArr os ->
  map_elems (patch_order orderId status) os = inr os' ->
  updateOrderStatus net orderId status w
  = (inr tt,
     {| store := with_orders (store w) (VArr os');
        trace := trace w ++ [ Fetch (order_request orderId status);
                              Invoke UpdateDashboardStats ];
        detached := detached w ++ [UpdateDashboardStats] |}).
Proof.
  intros Hcall Hsuccess Htruthy Horders Hmap.
  unfold updateOrderStatus. run_guarded.
  rewrite Hcall, Hsuccess, Htruthy. cbn [store].
  rewrite Horders. simpl. rewrite Hmap. simpl.
  rewrite <- app_assoc. reflexivity.
Qed.

Lemma updateDashboardStats_run (net : Request -> FetchOutcome) (w : World)
    (result success data : value) :
  api_result (net (GET "/api/admin/dashboard")) = inr result ->
  getProp result P_success = inr success ->
  truthy success = true ->
  getProp result P_data = inr data ->
  updateDashboardStats net w
  = (inr tt,
     {| store := with_stats (store w) data;
        trace := trace w ++ [Fetch (GET "/api/admin/dashboard")];
        detached := detached w |}).
Proof.
  intros Hcall Hsuccess Htruthy Hdata.
  unfold updateDashboardStats. run_guarded.
  rewrite Hcall, Hsuccess, Htruthy, Hdata. reflexivity.
Qed.

(** X16. When the dashboard request is answered with a truthy [success],
    [updateDashboardStats] replaces the statistics by the [data] of the
    answer, [undefined] when the answer has none, and keeps everything
    else. *)
Theorem updateDashboardStats_replaces (net : Request -> FetchOutcome)
    (w : World) (result success : value) :
  api_result (net (GET "/api/admin/dashboard")) = inr result ->
  getProp result P_success = inr success ->
  truthy success = true ->
  exists data : value,
    getProp result P_data = inr data /\
    (forall fields, result = VObj fields ->
                    data = default VUndefined (fields !! "data")) /\
    updateDashboardStats net w
    = (inr tt,
       {| store := with_stats (store w) data;
          trace := trace w ++ [Fetch (GET "/api/admin/dashboard")];
          detached := detached w |}).
Proof.
  intros Hcall Hsuccess Htruthy.
  destruct (getProp_defined result success P_success P_data Hsuccess)
    as [data Hdata].
  exists data. split; [exact Hdata|]. split.
  - intros fields ->. simpl in Hdata. congruence.
  - now apply (updateDashboardStats_run net w result success data).
Qed.

Lemma updateDashboardStats_replaces_witness :
  dashboardStats (store (snd (updateDashboardStats accepting_net
                                cached_world))) = VObj ∅.
Proof.
  destruct (updateDashboardStats_replaces accepting_net cached_world
              (VObj (<["success" := VBool true]> (<["data" := VObj ∅]> ∅)))
              (VBool true))
    as (data & Hdata & _ & Hrun); [reflexivity .. |].
  rewrite Hrun. simpl in Hdata. injection Hdata as <-. reflexivity.
Defined.

(** X17. After an acknowledged [updateOrderStatus], once the refresh it
    started has run and was itself acknowledged, the store holds the
    patched orders together with the statistics the dashboard answered. *)
Theorem updateOrderStatus_then_refresh (net : Request -> FetchOutcome)
    (orderId : string) (status : OrderStatus) (w : World)
    (os : list value) (result success stats ok data : value) :
  api_result (net (order_request orderId status)) = inr result ->
  getProp result P_success = inr success ->
  truthy success = true ->
  orders (store w) = VArr os ->
  all_readable os ->
  detached w = [] ->
  api_result (net (GET "/api/admin/dashboard")) = inr stats ->
  getProp stats P_success = inr ok ->
  truthy ok = true ->
  getProp stats P_data = inr data ->
  exists os' : list value,
    Forall2 (order_patched orderId status) os os' /\
    settle net (snd (updateOrderStatus net orderId status w))
    = {| store := with_stats (with_orders (store w) (VArr os')) data;
         trace := trace w ++ [ Fetch (order_request orderId status);
                               Invoke UpdateDashboardStats;
                               Fetch (GET "/api/admin/dashboard") ];
         detached := [] |}.
Proof.
  intros Hcall Hsuccess Htruthy Horders Hshape Hnone Hstats Hok Hokt Hdata.
  destruct (map_elems_patch orderId status os Hshape)
    as (os' & Hmap & Hpatched).
  exists os'. split; [exact Hpatched|].
  rewrite (updateOrderStatus_run net orderId status w os os' result success)
    by assumption.
  unfold settle. cbn [snd detached store trace]. rewrite Hnone.
  cbn [app fold_left run_action].
  rewrite (updateDashboardStats_run net _ stats ok data) by assumption.
  cbn [snd store trace detached]. rewrite <- app_assoc. reflexivity.
Qed.

Lemma updateOrderStatus_then_refresh_witness :
  dashboardStats
    (store (settle accepting_net
              (snd (updateOrderStatus accepting_net "o-2" delivered
                      cached_world))))
  = VObj ∅.
Proof.
  destruct (updateOrderStatus_then_refresh accepting_net "o-2" delivered
              cached_world
              [ order_json "o-1" "pending" 0x40d86a0000000000;
                order_json "o-2" "paid" 0x40c7700000000000 ]
              (VObj (<["success" := VBool true]> (<["data" := VObj ∅]> ∅)))
              (VBool true)
              (VObj (<["success" := VBool true]> (<["data" := VObj ∅]> ∅)))
              (VBool true) (VObj ∅))
    as (os' & _ & Hrun); try reflexivity.
  repeat constructor; discriminate.
Defined.

Lemma Forall2_kept (R : value -> value -> Prop) (xs ys : list value) :
  Forall2 R xs ys -> (forall x y, In x xs -> R x y -> y = x) -> ys = xs.
Proof.
  induction 1 as [|x y xs ys HR _ IH]; intros Hkeep; [reflexivity|].
  rewrite (Hkeep x y (or_introl eq_refl) HR), IH; [reflexivity|].
  intros x' y' Hin. apply Hkeep. now right.
Qed.

(** X18. An acknowledged [updateOrderStatus] for an id that no cached order
    has leaves the orders as they were, and still starts the refresh of the
    statistics. *)
Theorem updateOrderStatus_unknown_id (net : Request -> FetchOutcome)
    (orderId : string) (status : OrderStatus) (w : World)
    (os : list value) (result success : value) :
  api_result (net (order_request orderId status)) = inr result ->
  getProp result P_success = inr success ->
  truthy success = true ->
  orders (store w) = VArr os ->
  all_readable os ->
  (forall o, In o os -> has_string_id orderId o = false) ->
  orders (store (snd (updateOrderStatus net orderId status w))) = VArr os /\
  detached (snd (updateOrderStatus net orderId status w))
  = (detached w ++ [UpdateDashboardStats])%list.
Proof.
  intros Hcall Hsuccess Htruthy Horders Hshape Hunknown.
  destruct (map_elems_patch orderId status os Hshape)
    as (os' & Hmap & Hpatched).
  rewrite (updateOrderStatus_run net orderId status w os os' result success)
    by assumption.
  cbn [snd store with_orders orders detached]. split; [|reflexivity].
  f_equal. apply (Forall2_kept _ _ _ Hpatched).
  intros o o' Hin [_ Hother]. apply Hother.
  specialize (Hunknown o Hin). unfold has_string_id in Hunknown.
  intros Hid. rewrite Hid in Hunknown. simpl in Hunknown.
  now rewrite bool_decide_eq_true_2 in Hunknown.
Qed.

Lemma updateOrderStatus_unknown_id_witness :
  orders (store (snd (updateOrderStatus accepting_net "o-9" cancelled
                        cached_world)))
  = orders cached_state.
Proof.
  apply (updateOrderStatus_unknown_id accepting_net "o-9" cancelled
           cached_world
           [ order_json "o-1" "pending" 0x40d86a0000000000;
             order_json "o-2" "paid" 0x40c7700000000000 ]
           (VObj (<["success" := VBool true]> (<["data" := VObj ∅]> ∅)))
           (VBool true)); try reflexivity.
  - repeat constructor; discriminate.
  - intros o [<-|[<-|[]]]; reflexivity.
Defined.





End AdminStoreWrites.

(** ** Admin store: loading, session, search and persistence *)

Section AdminStoreSession.
Import JS AdminStore.

Lemma requests_fetches (rs : list Request) : requests (map Fetch rs) = rs.
Proof. induction rs as [|r rest IH]; simpl; [reflexivity | now rewrite IH]. Qed.

Lemma invocations_fetches (rs : list Request) :
  invocations (map Fetch rs) = 0%nat.
Proof. induction rs as [|r rest IH]; simpl; [reflexivity | exact IH]. Qed.

Lemma join_results_answered {A} (results : list (exn + A)) (xs : list A) :
  join_results results = inr xs -> Forall (fun r => exists x, r = inr x) results.
Proof.
  revert xs. induction results as [|[e|x] rest IH]; intros xs; simpl.
  - constructor.
  - discriminate.
  - destruct (join_results rest) as [e|ys] eqn:Hrest; [discriminate|].
    intros _. constructor; [now exists x | now apply (IH ys)].
Qed.

(** What every run of [loadInitialData] looks like. *)
Lemma loadInitialData_outcome (net : Request -> FetchOutcome) (w : World) :
  exists w' : World,
    loadInitialData net w = (inr tt, w') /\
    requests (trace w') = (requests (trace w) ++ initial_requests)%list /\
    invocations (trace w') = invocations (trace w) /\
    detached w' = detached w /\
    (store w' = store w \/
     exists dd ud pd od : value,
       store w'
       = {| isAdminLoggedIn := isAdminLoggedIn (store w);
            adminUser := adminUser (store w);
            users := ud; orders := od; products := pd;
            dashboardStats := dd |} /\
       Forall (fun r => exists v, api_result (net r) = inr v)
         initial_requests).
Proof.
  unfold loadInitialData, try_catch, bind.
  rewrite promise_all_apiCall.
  destruct (join_results _) as [e|results] eqn:Hjoin.
  { eexists. split; [reflexivity|]. cbn [trace store detached].
    rewrite !requests_app, !invocations_app, requests_fetches,
      invocations_fetches. simpl. rewrite app_nil_r.
    repeat split; auto; lia. }
  apply join_results_answered in Hjoin. rewrite Forall_map in Hjoin.
  unfold lift.
  destruct (getProp (nth 0 results VUndefined) P_data) as [e|dd];
    [|destruct (getProp (nth 1 results VUndefined) P_data) as [e|ud];
      [|destruct (getProp (nth 2 results VUndefined) P_data) as [e|pd];
        [|destruct (getProp (nth 3 results VUndefined) P_data) as [e|od]]]].
  5: { eexists. split; [reflexivity|]. cbn [trace store detached].
       rewrite !requests_app, !invocations_app, requests_fetches,
         invocations_fetches. simpl.
       repeat split; auto; try lia.
       right. exists dd, ud, pd, od. split; [reflexivity|].
       exact Hjoin. }
  all: eexists; (split; [reflexivity|]); cbn [trace store detached];
    rewrite !requests_app, !invocations_app, requests_fetches,
      invocations_fetches; simpl; rewrite app_nil_r; repeat split; auto; lia.
Qed.

(** X20. [loadInitialData] always sends its four requests, also after one
    of them failed, and writes all four slices or none: either the store is
    left as it was, or every request was answered and the four slices are
    replaced together. The admin session is never touched. *)
Theorem loadInitialData_atomic (net : Request -> FetchOutcome) (w : World) :
  requests (trace (snd (loadInitialData net w)))
  = (requests (trace w) ++ initial_requests)%list /\
  (store (snd (loadInitialData net w)) = store w \/
   exists dd ud pd od : value,
     store (snd (loadInitialData net w))
     = {| isAdminLoggedIn := isAdminLoggedIn (store w);
          adminUser := adminUser (store w);
          users := ud; orders := od; products := pd;
          dashboardStats := dd |} /\
     Forall (fun r => exists v, api_result (net r) = inr v)
       initial_requests).
Proof.
  destruct (loadInitialData_outcome net w)
    as (w' & -> & Hreq & _ & _ & Hstore).
  split; [exact Hreq | exact Hstore].
Qed.

Lemma declined_not_acknowledged (net : Request -> FetchOutcome)
    (r : Request) :
  declined net r <-> ~ acknowledged net r.
Proof.
  unfold declined, acknowledged. split.
  - intros Hdeclined (result & success & Hcall & Hsuccess & Htruthy).
    rewrite Hcall, Hsuccess in Hdeclined. congruence.
  - intros Hnot.
    destruct (api_result (net r)) as [e|result] eqn:Hcall; [exact I|].
    destruct (getProp result P_success) as [e|success] eqn:Hsuccess;
      [exact I|].
    destruct (truthy success) eqn:Htruthy; [|reflexivity].
    exfalso. apply Hnot. exists result, success. repeat split; assumption.
Qed.

(** The world in which [adminLogin] starts to load the data. *)
Lemma adminLogin_run (net : Request -> FetchOutcome)
    (email password : string) (w : World) (result success account : value) :
  api_result (net (auth_request email password)) = inr result ->
  getProp result P_success = inr success ->
  truthy success = true ->
  getProp result P_user = inr account ->
  adminLogin net email password w
  = (inr true,
     snd (loadInitialData net
            {| store :=
                 {| isAdminLoggedIn := true; adminUser := account;
                    users := users (store w); orders := orders (store w);
                    products := products (store w);
                    dashboardStats := dashboardStats (store w) |};
               trace := trace w ++ [Fetch (auth_request email password)];
               detached := detached w |})).
Proof.
  intros Hcall Hsuccess Htruthy Haccount.
  unfold adminLogin, try_catch, bind.
  rewrite apiCall_run, Hcall. unfold lift.
  rewrite Hsuccess, Htruthy, Haccount.
  pose proof (loadInitialData_returns net) as Hret.
  set (load := loadInitialData net) in *.
  unfold set_, bind, get, put, ret, assign. simpl.
  match goal with |- context [load ?w1] =>
    specialize (Hret w1); destruct (load w1) as [[e|[]] w2]
  end; simpl in Hret; [discriminate|]. reflexivity.
Qed.

(** X21. [adminLogin] returns normally, and returns true exactly when the
    auth request was answered with a truthy [success]. When it returns
    false the store is left as it was and the auth request is the only one
    sent: no data is loaded. *)
Theorem adminLogin_result (net : Request -> FetchOutcome)
    (email password : string) (w : World) :
  exists b : bool,
    fst (adminLogin net email password w) = inr b /\
    (b = true <-> acknowledged net (auth_request email password)) /\
    (b = false ->
     store (snd (adminLogin net email password w)) = store w /\
     requests (trace (snd (adminLogin net email password w)))
     = (requests (trace w) ++ [auth_request email password])%list).
Proof.
  destruct (api_result (net (auth_request email password)))
    as [e|result] eqn:Hcall;
    [|destruct (getProp result P_success) as [e|success] eqn:Hsuccess;
      [|destruct (truthy success) eqn:Htruthy]].
  4: { exists false. unfold adminLogin, try_catch, bind.
       rewrite apiCall_run, Hcall. unfold lift. rewrite Hsuccess, Htruthy.
       cbn [ret fst snd store trace]. split; [reflexivity|]. split.
       - split; [discriminate|].
         intros (r & s & Hr & Hs & Ht). rewrite Hcall in Hr.
         injection Hr as <-. congruence.
       - intros _. split; [reflexivity|].
         rewrite requests_app. simpl. reflexivity. }
  3: { destruct (getProp_defined result success P_success P_user Hsuccess)
         as [account Haccount].
       exists true.
       rewrite (adminLogin_run net email password w result success account)
         by assumption.
       split; [reflexivity|]. split; [|discriminate].
       split; [|reflexivity]. intros _. now exists result, success. }
  all: exists false; unfold adminLogin, try_catch, bind;
    rewrite apiCall_run, Hcall; unfold lift; rewrite ?Hsuccess;
    unfold console_error, emit, ret; cbn [fst snd store trace];
    (split; [reflexivity|]); split;
    [ split; [discriminate|];
      intros (r & s & Hr & Hs & Ht); rewrite Hcall in Hr; try discriminate;
      injection Hr as <-; congruence
    | intros _; split; [reflexivity|];
      rewrite !requests_app; simpl; now rewrite app_nil_r ].
Qed.

(** X22. When the auth request is answered with a truthy [success],
    [adminLogin] stores [result.user] as the admin, [undefined] when the
    answer has none, sets the logged-in flag, and sends the four requests
    of [loadInitialData] after the auth request; the cached slices are
    then all kept or all replaced. *)
Theorem adminLogin_session (net : Request -> FetchOutcome)
    (email password : string) (w : World) (result success : value) :
  api_result (net (auth_request email password)) = inr result ->
  getProp result P_success = inr success ->
  truthy success = true ->
  exists account : value,
    getProp result P_user = inr account /\
    isAdminLoggedIn (store (snd (adminLogin net email password w))) = true /\
    adminUser (store (snd (adminLogin net email password w))) = account /\
    requests (trace (snd (adminLogin net email password w)))
    = (requests (trace w)
         ++ auth_request email password :: initial_requests)%list /\
    ((users (store (snd (adminLogin net email password w)))
        = users (store w) /\
      orders (store (snd (adminLogin net email password w)))
        = orders (store w) /\
      products (store (snd (adminLogin net email password w)))
        = products (store w) /\
      dashboardStats (store (snd (adminLogin net email password w)))
        = dashboardStats (store w)) \/
     Forall (fun r => exists v, api_result (net r) = inr v)
       initial_requests).
Proof.
  intros Hcall Hsuccess Htruthy.
  destruct (getProp_defined result success P_success P_user Hsuccess)
    as [account Haccount].
  exists account. split; [exact Haccount|].
  rewrite (adminLogin_run net email password w result success account)
    by assumption.
  match goal with |- context [loadInitialData net ?w1] =>
    destruct (loadInitialData_outcome net w1)
      as (w' & -> & Hreq & _ & _ & Hstore) end.
  cbn [snd store trace] in *.
  rewrite Hreq, requests_app. cbn [requests]. rewrite <- app_assoc.
  destruct Hstore as [-> | (dd & ud & pd & od & -> & Hall)];
    cbn [isAdminLoggedIn adminUser users orders products dashboardStats];
    repeat split; auto.
Qed.

Lemma adminLogin_session_witness :
  adminUser (store (snd (adminLogin login_only_net "admin@shop.kr" "admin123"
                           cached_world)))
  = user_json "a-1" "Admin".
Proof.
  destruct (adminLogin_session login_only_net "admin@shop.kr" "admin123"
              cached_world
              (VObj (<["success" := VBool true]>
                      (<["user" := user_json "a-1" "Admin"]> ∅)))
              (VBool true))
    as (account & Haccount & _ & Hadmin & _); [reflexivity .. |].
  rewrite Hadmin. simpl in Haccount. now injection Haccount as <-.
Defined.

Ltac crunch :=
  repeat (cbn [fst snd store trace detached];
          match goal with
          | |- context [match ?x with _ => _ end] =>
              lazymatch x with
              | context [match _ with _ => _ end] => fail
              | _ => destruct x
              end
          end).

(** X23. [searchUsers] is a read-through: whatever the query and the
    answer, it returns normally, leaves the store as it was and starts
    nothing; it sends one request, or none when the query cannot be
    encoded. *)
Theorem searchUsers_read_through (net : Request -> FetchOutcome)
    (encodeURIComponent : string -> exn + string) (query : string)
    (w : World) :
  exists found : value,
    fst (searchUsers net encodeURIComponent query w) = inr found /\
    store (snd (searchUsers net encodeURIComponent query w)) = store w /\
    detached (snd (searchUsers net encodeURIComponent query w)) = detached w /\
    requests (trace (snd (searchUsers net encodeURIComponent query w)))
    = (requests (trace w)
         ++ match encodeURIComponent query with
            | inr encoded => [GET ("/api/admin/users?search=" ++ encoded)]
            | inl _ => []
            end)%list.
Proof.
  unfold searchUsers, try_catch, bind, lift.
  destruct (encodeURIComponent query) as [e|encoded].
  - eexists. unfold console_error, emit, ret. cbn [fst snd store trace detached].
    rewrite requests_app, app_nil_r. simpl. rewrite app_nil_r.
    repeat split.
  - rewrite apiCall_run.
    unfold console_error, emit, ret. crunch;
      (eexists; split; [reflexivity|]);
      cbn [fst snd store trace detached];
      rewrite ?requests_app; simpl; rewrite ?app_nil_r; repeat split.
Qed.

(** X24. [searchUsers] returns the [data] of an answer with a truthy
    [success], whatever it is, and the empty array in every other case:
    query not encodable, request failed, or [success] not truthy. *)
Theorem searchUsers_found (net : Request -> FetchOutcome)
    (encodeURIComponent : string -> exn + string) (query encoded : string)
    (w : World) :
  encodeURIComponent query = inr encoded ->
  (forall result success,
     api_result (net (GET ("/api/admin/users?search=" ++ encoded)))
       = inr result ->
     getProp result P_success = inr success ->
     truthy success = true ->
     exists data, getProp result P_data = inr data /\
       fst (searchUsers net encodeURIComponent query w) = inr data) /\
  (declined net (GET ("/api/admin/users?search=" ++ encoded)) ->
   fst (searchUsers net encodeURIComponent query w) = inr (VArr [])).
Proof.
  intros Hencoded. split.
  - intros result success Hcall Hsuccess Htruthy.
    destruct (getProp_defined result success P_success P_data Hsuccess)
      as [data Hdata].
    exists data. split; [exact Hdata|].
    unfold searchUsers, try_catch, bind, lift. rewrite Hencoded.
    rewrite apiCall_run, Hcall, Hsuccess, Htruthy, Hdata. reflexivity.
  - unfold declined, searchUsers, try_catch, bind, lift. rewrite Hencoded.
    rewrite apiCall_run.
    destruct (api_result (net (GET ("/api/admin/users?search=" ++ encoded))))
      as [e|result]; [reflexivity|].
    destruct (getProp result P_success) as [e|success]; [reflexivity|].
    now intros ->.
Qed.

Lemma searchUsers_found_witness :
  fst (searchUsers products_down_net sample_encode "Lee" cached_world)
  = inr (VArr [user_json "u-9" "Lee"]) /\
  fst (searchUsers refusing_net sample_encode "Lee" cached_world)
  = inr (VArr []).
Proof.
  split.
  - destruct (searchUsers_found products_down_net sample_encode "Lee" "Lee"
                cached_world eq_refl) as [Hfound _].
    destruct (Hfound
                (VObj (<["success" := VBool true]>
                        (<["data" := VArr [user_json "u-9" "Lee"]]> ∅)))
                (VBool true) eq_refl eq_refl eq_refl)
      as (data & Hdata & Hrun).
    rewrite Hrun. simpl in Hdata. now injection Hdata as <-.
  - destruct (searchUsers_found refusing_net sample_encode "Lee" "Lee"
                cached_world eq_refl) as [_ Hempty].
    apply Hempty. reflexivity.
Defined.

(** A value that a JSON text denotes survives [stringify] and [parse]. *)
Fixpoint reparse_clean (v : value) (H : json_clean v) {struct H} :
  reparse v = Some v.
Proof.
  destruct H as [|b|bits Hfinite Hzero|s|elems Helems|fields Hfields];
    cbn [reparse]; try reflexivity.
  - rewrite Hfinite. destruct (number_is_zero bits) eqn:Hz; [|reflexivity].
    now rewrite (Hzero eq_refl).
  - do 2 f_equal. apply list_eq. intros i. rewrite list_lookup_fmap.
    destruct (elems !! i) as [x|] eqn:Hx; [|reflexivity]. simpl.
    now rewrite (reparse_clean x (Helems i x Hx)).
  - do 2 f_equal. apply map_eq. intros key. rewrite lookup_omap.
    destruct (fields !! key) as [x|] eqn:Hx; [|reflexivity]. simpl.
    exact (reparse_clean x (Hfields key x Hx)).
Qed.

Lemma persisted_entry (s : AdminState) (st : gmap string value) :
  persist s st !! storage_name
  = Some (VObj (<["state" := VObj (omap reparse (partialize s))]>
                 (<["version" := VNum 0]> ∅))).
Proof.
  unfold persist. cbn [reparse]. rewrite lookup_insert_eq. reflexivity.
Qed.

Lemma rehydrate_persist (s : AdminState) (st : gmap string value) :
  rehydrate (persist s st)
  = Some {| isAdminLoggedIn := isAdminLoggedIn s;
            adminUser := default VNull (reparse (adminUser s));
            users := default (VArr []) (reparse (users s));
            orders := default (VArr []) (reparse (orders s));
            products := default (VArr []) (reparse (products s));
            dashboardStats := dashboardStats initialState |}.
Proof.
  unfold rehydrate. rewrite persisted_entry, lookup_insert_eq.
  unfold merge. rewrite !lookup_omap.
  change (partialize s !! "isAdminLoggedIn")
    with (Some (VBool (isAdminLoggedIn s))).
  change (partialize s !! "adminUser") with (Some (adminUser s)).
  change (partialize s !! "users") with (Some (users s)).
  change (partialize s !! "orders") with (Some (orders s)).
  change (partialize s !! "products") with (Some (products s)).
  change (partialize s !! "dashboardStats") with (@None value).
  cbn [mbind option_bind reparse default].
  reflexivity.
Qed.

(** X25. Writing the durable subset of an admin state whose admin, users,
    orders and products are values a JSON text can denote, and creating the
    store again, gives back the session and the three collections; the
    statistics are not stored and come back as the initial, all-zero
    record. *)
Theorem admin_persist_rehydrate (s : AdminState) (st : gmap string value) :
  json_clean (adminUser s) -> json_clean (users s) ->
  json_clean (orders s) -> json_clean (products s) ->
  rehydrate (persist s st)
  = Some (with_stats s (dashboardStats initialState)).
Proof.
  intros Hadmin Husers Horders Hproducts. rewrite rehydrate_persist.
  now rewrite !reparse_clean.
Qed.

(** X26. A slice that holds [undefined], as a refused [loadInitialData]
    leaves it, is not written to the storage: after a reload it is the
    initial empty array again. *)
Theorem undefined_slice_not_persisted (s : AdminState)
    (st : gmap string value) :
  users s = VUndefined ->
  exists s' : AdminState,
    rehydrate (persist s st) = Some s' /\
    users s' = VArr [] /\
    isAdminLoggedIn s' = isAdminLoggedIn s /\
    dashboardStats s' = dashboardStats initialState.
Proof.
  intros Hundef. rewrite rehydrate_persist. eexists. split; [reflexivity|].
  cbn [users isAdminLoggedIn dashboardStats]. rewrite Hundef.
  repeat split.
Qed.

Lemma undefined_slice_not_persisted_witness :
  exists s' : AdminState,
    rehydrate
      (persist (store (snd (loadInitialData refusing_net cached_world))) ∅)
    = Some s' /\
    users s' = VArr [].
Proof.
  destruct (undefined_slice_not_persisted
              (store (snd (loadInitialData refusing_net cached_world))) ∅)
    as (s' & Hs' & Husers & _); [reflexivity|].
  exists s'. split; [exact Hs' | exact Husers].
Defined.

(** X27. [adminLogout] clears the session and nothing else, without any
    request: the cached users, orders, products and statistics stay, and
    the snapshot written after it still holds the three collections. A
    second [adminLogout] changes nothing more. *)
Theorem adminLogout_keeps_cache (w : World) (st : gmap string value) :
  json_clean (users (store w)) -> json_clean (orders (store w)) ->
  json_clean (products (store w)) ->
  adminLogout w
  = (inr tt,
     {| store :=
          {| isAdminLoggedIn := false; adminUser := VNull;
             users := users (store w); orders := orders (store w);
             products := products (store w);
             dashboardStats := dashboardStats (store w) |};
        trace := trace w; detached := detached w |}) /\
  adminLogout (snd (adminLogout w)) = adminLogout w /\
  rehydrate (persist (store (snd (adminLogout w))) st)
  = Some {| isAdminLoggedIn := false; adminUser := VNull;
            users := users (store w); orders := orders (store w);
            products := products (store w);
            dashboardStats := dashboardStats initialState |}.
Proof.
  intros Husers Horders Hproducts.
  split; [reflexivity|]. split; [reflexivity|].
  rewrite rehydrate_persist. cbn [snd adminLogout store].
  unfold adminLogout, set_, bind, get, put, assign. simpl.
  now rewrite !reparse_clean.
Qed.

Lemma clean_insert (key : string) (x : value) (fields : gmap string value) :
  json_clean x ->
  (forall k y, fields !! k = Some y -> json_clean y) ->
  forall k y, <[key := x]> fields !! k = Some y -> json_clean y.
Proof.
  intros Hx Hfields k y. rewrite lookup_insert_Some.
  intros [[_ <-]|[_ Hk]]; [exact Hx | exact (Hfields k y Hk)].
Qed.

Lemma clean_empty (k : string) (y : value) :
  (∅ : gmap string value) !! k = Some y -> json_clean y.
Proof. now rewrite lookup_empty. Qed.

Lemma clean_elems (elems : list value) :
  Forall json_clean elems ->
  forall (i : nat) (x : value), elems !! i = Some x -> json_clean x.
Proof. intros Hall i x Hx. exact (Forall_lookup_1 _ _ i x Hall Hx). Qed.

Ltac prove_clean :=
  lazymatch goal with
  | |- json_clean VNull => apply clean_null
  | |- json_clean (VBool _) => apply clean_bool
  | |- json_clean (VStr _) => apply clean_str
  | |- json_clean (VNum _) =>
      apply clean_num;
      [ reflexivity
      | let Hz := fresh in
        intros Hz; first [reflexivity | vm_compute in Hz; discriminate Hz] ]
  | |- json_clean (VArr _) =>
      apply clean_arr, clean_elems;
      repeat (apply List.Forall_cons; [prove_clean|]); apply List.Forall_nil
  | |- json_clean (VObj _) => apply clean_obj; prove_fields
  end
with prove_fields :=
  lazymatch goal with
  | |- forall k y, <[_ := _]> _ !! k = Some y -> _ =>
      apply clean_insert; [prove_clean | prove_fields]
  | |- forall k y, ∅ !! k = Some y -> _ => apply clean_empty
  end.

Lemma cached_state_clean :
  json_clean (adminUser cached_state) /\ json_clean (users cached_state) /\
  json_clean (orders cached_state) /\ json_clean (products cached_state).
Proof.
  cbv [adminUser users orders products cached_state user_json order_json].
  repeat split; prove_clean.
Qed.

Lemma admin_persist_rehydrate_witness :
  rehydrate (persist cached_state ∅)
  = Some (with_stats cached_state (dashboardStats initialState)).
Proof.
  destruct cached_state_clean as (Hadmin & Husers & Horders & Hproducts).
  exact (admin_persist_rehydrate cached_state ∅ Hadmin Husers Horders
           Hproducts).
Defined.

Lemma adminLogout_keeps_cache_witness :
  rehydrate (persist (store (snd (adminLogout cached_world))) ∅)
  = Some {| isAdminLoggedIn := false; adminUser := VNull;
            users := users cached_state; orders := orders cached_state;
            products := products cached_state;
            dashboardStats := dashboardStats initialState |}.
Proof.
  destruct cached_state_clean as (_ & Husers & Horders & Hproducts).
  apply (adminLogout_keeps_cache cached_world ∅ Husers Horders Hproducts).
Defined.

End AdminStoreSession.
